(** * The Gurobi backend of Sage's MIP interface, embedded in Rocq

    Shallow embedding of [sage_numerical_backends_gurobi/gurobi_backend.pyx]:
    the class [GurobiBackend], the module-level tables [errors], [mip_status]
    and [parameters_type], and the helper [check].

    - A C [double] is a binary64 primitive float; a C [int] is a [Z].
    - A Python argument whose identity or truth value the code inspects
      ([None], [False], a number) is a [pyval].
    - The methods run in a state-and-exception monad over a [world]: the
      heap of Python backend objects, the heaps of native environments and
      models, and the trace of the native calls made so far.
    - The source is compiled with [HAVE_SAGE_CPYTHON_STRING] true; strings
      are byte strings ([str_to_bytes] and [char_to_str] are the identity
      on them). *)

From Stdlib Require Import ZArith String Ascii Floats DecimalString List Bool Lia.
From stdpp Require Import gmap strings list.

#[local] Set Warnings "-inexact-float".
#[local] Open Scope Z_scope.

(** ** Python values *)

Inductive pyval : Type :=
| PyNone
| PyBool (b : bool)
| PyInt (z : Z)
| PyFloat (x : float)
| PyStr (s : string).

Inductive exn : Type :=
| ValueError (msg : string)
| RuntimeError (msg : string)
| MIPSolverException (msg : string)
| KeyError (key : Z)
| TypeError
| OverflowError
| SystemError.

(** [x is None], [x is False] *)
Definition is_None (v : pyval) : bool :=
  match v with PyNone => true | _ => false end.

Definition is_False (v : pyval) : bool :=
  match v with PyBool false => true | _ => false end.

Definition float_is_zero (x : float) : bool := PrimFloat.eqb x 0%float.

(** [bool(x)]: the truth value Python gives an object. *)
Definition truthy (v : pyval) : bool :=
  match v with
  | PyNone => false
  | PyBool b => b
  | PyInt z => negb (z =? 0)
  | PyFloat x => negb (float_is_zero x)
  | PyStr s => negb (String.eqb s EmptyString)
  end.

(** [float(n)] for a Python int: round to nearest even. *)
Definition Z2double (z : Z) : float := SF2Prim (binary_normalize prec emax z 0 false).

Definition double_is_inf (x : float) : bool :=
  PrimFloat.eqb x infinity || PrimFloat.eqb x neg_infinity.

(** Conversion of a Python object to a C [double], as Cython does for a
    [double] parameter or a [<double>] cast. *)
Definition as_double (v : pyval) : exn + float :=
  match v with
  | PyNone => inl TypeError
  | PyBool b => inr (if b then 1%float else 0%float)
  | PyInt z => let x := Z2double z in
               if double_is_inf x then inl OverflowError else inr x
  | PyFloat x => inr x
  | PyStr _ => inl TypeError
  end.

Definition INT_MAX : Z := 2147483647.
Definition INT_MIN : Z := -2147483648.

(** Conversion of a Python object to a C [int]. *)
Definition as_int (v : pyval) : exn + Z :=
  match v with
  | PyBool b => inr (if b then 1 else 0)
  | PyInt z => if (INT_MIN <=? z) && (z <=? INT_MAX) then inr z else inl OverflowError
  | _ => inl TypeError
  end.

(** The exact value of a finite float as a fraction [n / 2^k]. *)
Definition float_exact (x : float) : option (Z * Z) :=
  match Prim2SF x with
  | S754_zero _ => Some (0, 0)
  | S754_finite s m e =>
      let n := if s then Z.neg m else Z.pos m in
      if 0 <=? e then Some (n * 2 ^ e, 0) else Some (n, - e)
  | _ => None
  end.

Definition int_eq_float (z : Z) (x : float) : bool :=
  match float_exact x with
  | Some (n, k) => z * 2 ^ k =? n
  | None => false
  end.

Definition py_num (v : pyval) : option (Z + float) :=
  match v with
  | PyBool b => Some (inl (if b then 1 else 0))
  | PyInt z => Some (inl z)
  | PyFloat x => Some (inr x)
  | _ => None
  end.

(** [a == b] on Python objects: numbers compare by exact value. *)
Definition py_eq (a b : pyval) : bool :=
  match a, b with
  | PyNone, PyNone => true
  | PyStr s, PyStr t => String.eqb s t
  | _, _ =>
      match py_num a, py_num b with
      | Some (inl x), Some (inl y) => x =? y
      | Some (inr x), Some (inr y) => PrimFloat.eqb x y
      | Some (inl x), Some (inr y) => int_eq_float x y
      | Some (inr x), Some (inl y) => int_eq_float y x
      | _, _ => false
      end
  end.

Definition int_lt_float (z : Z) (x : float) : bool :=
  match float_exact x with
  | Some (n, k) => z * 2 ^ k <? n
  | None => PrimFloat.eqb x infinity
  end.

Definition float_lt_int (x : float) (z : Z) : bool :=
  match float_exact x with
  | Some (n, k) => n <? z * 2 ^ k
  | None => PrimFloat.eqb x neg_infinity
  end.

(** [a < b] on Python numbers, by exact value. *)
Definition py_lt (a b : pyval) : bool :=
  match py_num a, py_num b with
  | Some (inl x), Some (inl y) => x <? y
  | Some (inr x), Some (inr y) => PrimFloat.ltb x y
  | Some (inl x), Some (inr y) => int_lt_float x y
  | Some (inr x), Some (inl y) => float_lt_int x y
  | _, _ => false
  end.

(** ** Strings *)

(** [str(n)] for an int. *)
Definition str_int (z : Z) : string := NilZero.string_of_int (Z.to_int z).

Definition lower_ascii (c : ascii) : ascii :=
  let n := nat_of_ascii c in
  if ((65 <=? n) && (n <=? 90))%nat then ascii_of_nat (n + 32) else c.

(** [s.lower()] *)
Fixpoint lower (s : string) : string :=
  match s with
  | EmptyString => EmptyString
  | String c r => String (lower_ascii c) (lower r)
  end.

Definition chr (n : nat) : string := String (ascii_of_nat n) EmptyString.

Definition hex_digit (n : nat) : string :=
  chr (if (n <? 10)%nat then 48 + n else 87 + n)%nat.

Definition squote : ascii := ascii_of_nat 39.
Definition dquote : ascii := ascii_of_nat 34.
Definition backslash : ascii := ascii_of_nat 92.

Fixpoint contains (c : ascii) (s : string) : bool :=
  match s with
  | EmptyString => false
  | String d r => Ascii.eqb c d || contains c r
  end.

Definition repr_byte (q c : ascii) : string :=
  let n := nat_of_ascii c in
  if Ascii.eqb c q || Ascii.eqb c backslash then String backslash (String c EmptyString)
  else if (n =? 9)%nat then String backslash "t"
  else if (n =? 10)%nat then String backslash "n"
  else if (n =? 13)%nat then String backslash "r"
  else if ((n <? 32) || (127 <=? n))%nat
       then String backslash ("x" ++ hex_digit (n / 16) ++ hex_digit (n mod 16))
  else String c EmptyString.

Fixpoint repr_bytes_body (q : ascii) (s : string) : string :=
  match s with
  | EmptyString => EmptyString
  | String c r => repr_byte q c ++ repr_bytes_body q r
  end.

(** [str(b)] for a [bytes] object [b], which in Python 3 is its [repr]. *)
Definition str_bytes (s : string) : string :=
  let q := if contains squote s && negb (contains dquote s) then dquote else squote in
  "b" ++ String q (repr_bytes_body q s ++ String q EmptyString).

(** The C string a [char *] sees in a byte string: up to the first NUL. *)
Fixpoint c_str (s : string) : string :=
  match s with
  | EmptyString => EmptyString
  | String c r => if Ascii.eqb c Ascii.zero then EmptyString else String c (c_str r)
  end.

(** [bytes(n)]: [n] zero bytes. *)
Fixpoint zero_bytes (n : nat) : string :=
  match n with
  | O => EmptyString
  | S k => String Ascii.zero (zero_bytes k)
  end.

(** ** The native solver

    Modelled from the spec: the solver's C API, which the source reaches
    through extern declarations that are not part of the [.pyx] file. The
    spec describes it as an environment and model lifecycle, attributes got
    and set by name, rows and columns added, an optimizer call, and an
    error-message lookup. The model below is a reference implementation of
    that protocol: changes are visible to the next query (as the source's
    own examples read a row straight after adding it), an index out of range
    or an unknown name is answered with the library's error code, and the
    optimization engine itself is an opaque function of the library. *)

(** A native pointer; [NULL] is 0. *)
Definition handle : Type := nat.
Definition NULL : handle := 0%nat.

Definition GRB_INFINITY : float := 1e100%float.

Definition GRB_BINARY : ascii := "B"%char.
Definition GRB_CONTINUOUS : ascii := "C"%char.
Definition GRB_INTEGER : ascii := "I"%char.

Definition GRB_LESS_EQUAL : ascii := "<"%char.
Definition GRB_GREATER_EQUAL : ascii := ">"%char.
Definition GRB_EQUAL : ascii := "="%char.

Definition GRB_LOADED : Z := 1.
Definition GRB_OPTIMAL : Z := 2.
Definition GRB_INFEASIBLE : Z := 3.
Definition GRB_INF_OR_UNBD : Z := 4.
Definition GRB_UNBOUNDED : Z := 5.
Definition GRB_ITERATION_LIMIT : Z := 7.
Definition GRB_NODE_LIMIT : Z := 8.
Definition GRB_TIME_LIMIT : Z := 9.
Definition GRB_SOLUTION_LIMIT : Z := 10.

Definition GRB_ERROR_NULL_ARGUMENT : Z := 10002.
Definition GRB_ERROR_INVALID_ARGUMENT : Z := 10003.
Definition GRB_ERROR_UNKNOWN_ATTRIBUTE : Z := 10004.
Definition GRB_ERROR_DATA_NOT_AVAILABLE : Z := 10005.
Definition GRB_ERROR_INDEX_OUT_OF_RANGE : Z := 10006.
Definition GRB_ERROR_UNKNOWN_PARAMETER : Z := 10007.

Inductive param_value : Type :=
| PInt (z : Z)
| PDbl (x : float)
| PStr (s : string).

Record GRBenv : Type := mkEnv {
  params : gmap string param_value;
  errormsg : string
}.

Record GRBvar : Type := mkVar {
  LB : float;
  UB : float;
  VType : ascii;
  Obj : float;
  VarName : string
}.

Record GRBconstr : Type := mkConstr {
  coefs : list (Z * float);
  Sense : ascii;
  RHS : float;
  ConstrName : string
}.

Record GRBmodel : Type := mkModel {
  m_env : handle;
  vars : list GRBvar;
  constrs : list GRBconstr;
  ModelSense : Z;
  ModelName : option string;
  Status : Z;
  ObjVal : option float
}.

(** The entry points the backend calls, each with its arguments. *)
Inductive call : Type :=
| GRBemptyenv
| GRBstartenv (env : handle)
| GRBgeterrormsg (env : handle)
| GRBsetintparam (env : handle) (name : string) (v : Z)
| GRBsetdblparam (env : handle) (name : string) (v : float)
| GRBsetstrparam (env : handle) (name : string) (v : string)
| GRBgetintparam (env : handle) (name : string)
| GRBgetdblparam (env : handle) (name : string)
| GRBgetstrparam (env : handle) (name : string)
| GRBnewmodel (env : handle)
| GRBcopymodel (model : handle)
| GRBgetenv (model : handle)
| GRBupdatemodel (model : handle)
| GRBoptimize (model : handle)
| GRBsetintattr (model : handle) (attr : string) (v : Z)
| GRBgetintattr (model : handle) (attr : string)
| GRBgetdblattr (model : handle) (attr : string)
| GRBsetstrattr (model : handle) (attr : string) (v : string)
| GRBgetstrattr (model : handle) (attr : string)
| GRBsetcharattrelement (model : handle) (attr : string) (i : Z) (v : ascii)
| GRBgetcharattrelement (model : handle) (attr : string) (i : Z)
| GRBsetdblattrelement (model : handle) (attr : string) (i : Z) (v : float)
| GRBgetdblattrelement (model : handle) (attr : string) (i : Z)
| GRBaddvar (model : handle) (vind : list Z) (vval : list float)
            (obj lb ub : float) (vtype : ascii) (varname : string)
| GRBaddconstr (model : handle) (cind : list Z) (cval : list float)
               (sense : ascii) (rhs : float) (constrname : string)
| GRBaddrangeconstr (model : handle) (cind : list Z) (cval : list float)
                    (lower upper : float) (constrname : string).

(** What a native call hands back besides its error code. *)
Inductive outval : Type :=
| ONone
| OInt (z : Z)
| ODbl (x : float)
| OChr (c : ascii)
| OStr (s : option string)
| OPtr (h : handle).

Record outcome : Type := mkOutcome {
  opt_error : Z;
  opt_status : Z;
  opt_objval : option float
}.

(** The parts of the library this development does not look into. *)
Record GRBlibrary : Type := mkLibrary {
  engine : GRBenv -> GRBmodel -> outcome;
  error_text : call -> Z -> string;
  param_default : string -> option param_value
}.

(** A backend object: the fields of the [cdef class]. *)
Record Backend : Type := mkBackend {
  env_master : handle;
  model : handle;
  env : handle;
  obj_constant_term : pyval
}.

Record world : Type := mkWorld {
  lib : GRBlibrary;
  envs : gmap nat GRBenv;
  models : gmap nat GRBmodel;
  objs : gmap nat Backend;
  next : nat;
  trace : list call
}.

Definition set_envs (f : gmap nat GRBenv -> gmap nat GRBenv) (w : world) : world :=
  mkWorld (lib w) (f (envs w)) (models w) (objs w) (next w) (trace w).
Definition set_models (f : gmap nat GRBmodel -> gmap nat GRBmodel) (w : world) : world :=
  mkWorld (lib w) (envs w) (f (models w)) (objs w) (next w) (trace w).
Definition set_objs (f : gmap nat Backend -> gmap nat Backend) (w : world) : world :=
  mkWorld (lib w) (envs w) (models w) (f (objs w)) (next w) (trace w).
Definition set_next (n : nat) (w : world) : world :=
  mkWorld (lib w) (envs w) (models w) (objs w) n (trace w).
Definition log (c : call) (w : world) : world :=
  mkWorld (lib w) (envs w) (models w) (objs w) (next w) (trace w ++ [c]).

(** A fresh address, never [NULL]. *)
Definition fresh (w : world) : handle := S (next w).

Definition in_range {A} (i : Z) (l : list A) : bool :=
  (0 <=? i) && (i <? Z.of_nat (length l)).

(** Any change to a model discards the solution information. *)
Definition touch (m : GRBmodel) : GRBmodel :=
  mkModel (m_env m) (vars m) (constrs m) (ModelSense m) (ModelName m) GRB_LOADED None.

Definition with_vars (vs : list GRBvar) (m : GRBmodel) : GRBmodel :=
  touch (mkModel (m_env m) vs (constrs m) (ModelSense m) (ModelName m) (Status m) (ObjVal m)).
Definition with_constrs (cs : list GRBconstr) (m : GRBmodel) : GRBmodel :=
  touch (mkModel (m_env m) (vars m) cs (ModelSense m) (ModelName m) (Status m) (ObjVal m)).

Definition set_LB (x : float) (v : GRBvar) := mkVar x (UB v) (VType v) (Obj v) (VarName v).
Definition set_UB (x : float) (v : GRBvar) := mkVar (LB v) x (VType v) (Obj v) (VarName v).
Definition set_VType (c : ascii) (v : GRBvar) := mkVar (LB v) (UB v) c (Obj v) (VarName v).
Definition set_Obj (x : float) (v : GRBvar) := mkVar (LB v) (UB v) (VType v) x (VarName v).

Definition add_coef (col : Z) (x : float) (c : GRBconstr) : GRBconstr :=
  mkConstr (coefs c ++ [(col, x)]) (Sense c) (RHS c) (ConstrName c).

(** The new column's entries, written into the rows they name. *)
Fixpoint add_column (col : Z) (entries : list (Z * float)) (cs : list GRBconstr)
  : list GRBconstr :=
  match entries with
  | [] => cs
  | (r, x) :: rest => add_column col rest (alter (add_coef col x) (Z.to_nat r) cs)
  end.

Definition valid_vtype (c : ascii) : bool :=
  contains c "CBISN".

Definition valid_sense (c : ascii) : bool :=
  contains c "<>=".

(** *** Calls on one model *)

Definition reply : Type := Z * outval.

Definition ok (o : outval) : reply := (0, o).
Definition failed (code : Z) : reply := (code, ONone).

Definition get_int_attr (attr : string) (m : GRBmodel) : reply :=
  if String.eqb attr "ModelSense" then ok (OInt (ModelSense m))
  else if String.eqb attr "NumVars" then ok (OInt (Z.of_nat (length (vars m))))
  else if String.eqb attr "NumConstrs" then ok (OInt (Z.of_nat (length (constrs m))))
  else if String.eqb attr "Status" then ok (OInt (Status m))
  else failed GRB_ERROR_UNKNOWN_ATTRIBUTE.

Definition set_int_attr (attr : string) (v : Z) (m : GRBmodel) : reply * GRBmodel :=
  if String.eqb attr "ModelSense" then
    if (v =? 1) || (v =? -1)
    then (ok ONone, touch (mkModel (m_env m) (vars m) (constrs m) v (ModelName m)
                                   (Status m) (ObjVal m)))
    else (failed GRB_ERROR_INVALID_ARGUMENT, m)
  else (failed GRB_ERROR_UNKNOWN_ATTRIBUTE, m).

Definition get_dbl_attr (attr : string) (m : GRBmodel) : reply :=
  if String.eqb attr "ObjVal" then
    match ObjVal m with
    | Some x => ok (ODbl x)
    | None => failed GRB_ERROR_DATA_NOT_AVAILABLE
    end
  else failed GRB_ERROR_UNKNOWN_ATTRIBUTE.

Definition set_str_attr (attr : string) (v : string) (m : GRBmodel) : reply * GRBmodel :=
  if String.eqb attr "ModelName"
  then (ok ONone, mkModel (m_env m) (vars m) (constrs m) (ModelSense m) (Some v)
                          (Status m) (ObjVal m))
  else (failed GRB_ERROR_UNKNOWN_ATTRIBUTE, m).

Definition get_str_attr (attr : string) (m : GRBmodel) : reply :=
  if String.eqb attr "ModelName" then ok (OStr (ModelName m))
  else failed GRB_ERROR_UNKNOWN_ATTRIBUTE.

Definition var_at (i : Z) (m : GRBmodel) : option GRBvar :=
  if in_range i (vars m) then vars m !! Z.to_nat i else None.

Definition constr_at (i : Z) (m : GRBmodel) : option GRBconstr :=
  if in_range i (constrs m) then constrs m !! Z.to_nat i else None.

Definition get_char_attr_element (attr : string) (i : Z) (m : GRBmodel) : reply :=
  if String.eqb attr "VType" then
    match var_at i m with
    | Some v => ok (OChr (VType v))
    | None => failed GRB_ERROR_INDEX_OUT_OF_RANGE
    end
  else if String.eqb attr "Sense" then
    match constr_at i m with
    | Some c => ok (OChr (Sense c))
    | None => failed GRB_ERROR_INDEX_OUT_OF_RANGE
    end
  else failed GRB_ERROR_UNKNOWN_ATTRIBUTE.

Definition update_var (f : GRBvar -> GRBvar) (i : Z) (m : GRBmodel) : reply * GRBmodel :=
  if in_range i (vars m)
  then (ok ONone, with_vars (alter f (Z.to_nat i) (vars m)) m)
  else (failed GRB_ERROR_INDEX_OUT_OF_RANGE, m).

Definition set_char_attr_element (attr : string) (i : Z) (c : ascii) (m : GRBmodel)
  : reply * GRBmodel :=
  if String.eqb attr "VType" then
    if valid_vtype c then update_var (set_VType c) i m
    else (failed GRB_ERROR_INVALID_ARGUMENT, m)
  else (failed GRB_ERROR_UNKNOWN_ATTRIBUTE, m).

Definition get_dbl_attr_element (attr : string) (i : Z) (m : GRBmodel) : reply :=
  if String.eqb attr "Obj" || String.eqb attr "LB" || String.eqb attr "UB" then
    match var_at i m with
    | Some v => ok (ODbl (if String.eqb attr "Obj" then Obj v
                          else if String.eqb attr "LB" then LB v else UB v))
    | None => failed GRB_ERROR_INDEX_OUT_OF_RANGE
    end
  else if String.eqb attr "RHS" then
    match constr_at i m with
    | Some c => ok (ODbl (RHS c))
    | None => failed GRB_ERROR_INDEX_OUT_OF_RANGE
    end
  else failed GRB_ERROR_UNKNOWN_ATTRIBUTE.

Definition set_dbl_attr_element (attr : string) (i : Z) (x : float) (m : GRBmodel)
  : reply * GRBmodel :=
  if String.eqb attr "Obj" then update_var (set_Obj x) i m
  else if String.eqb attr "LB" then update_var (set_LB x) i m
  else if String.eqb attr "UB" then update_var (set_UB x) i m
  else (failed GRB_ERROR_UNKNOWN_ATTRIBUTE, m).

Definition all_in_range {A} (ind : list Z) (l : list A) : bool :=
  forallb (fun i => in_range i l) ind.

Definition add_var (vind : list Z) (vval : list float) (obj lb ub : float)
    (vtype : ascii) (varname : string) (m : GRBmodel) : reply * GRBmodel :=
  if negb (valid_vtype vtype) then (failed GRB_ERROR_INVALID_ARGUMENT, m)
  else if negb (all_in_range vind (constrs m)) then (failed GRB_ERROR_INDEX_OUT_OF_RANGE, m)
  else
    let col := Z.of_nat (length (vars m)) in
    let m1 := with_vars (vars m ++ [mkVar lb ub vtype obj varname]) m in
    (ok ONone, with_constrs (add_column col (List.combine vind vval) (constrs m1)) m1).

Definition add_constr (cind : list Z) (cval : list float) (sense : ascii) (rhs : float)
    (constrname : string) (m : GRBmodel) : reply * GRBmodel :=
  if negb (valid_sense sense) then (failed GRB_ERROR_INVALID_ARGUMENT, m)
  else if negb (all_in_range cind (vars m)) then (failed GRB_ERROR_INDEX_OUT_OF_RANGE, m)
  else (ok ONone,
        with_constrs (constrs m ++ [mkConstr (List.combine cind cval) sense rhs constrname]) m).

(** A range row [lower <= a.x <= upper] is stored as the equality
    [a.x - s = lower] over a new column [0 <= s <= upper - lower]. *)
Definition add_range_constr (cind : list Z) (cval : list float) (lower upper : float)
    (constrname : string) (m : GRBmodel) : reply * GRBmodel :=
  if negb (all_in_range cind (vars m)) then (failed GRB_ERROR_INDEX_OUT_OF_RANGE, m)
  else
    let s := Z.of_nat (length (vars m)) in
    let slack := mkVar 0%float (upper - lower)%float GRB_CONTINUOUS 0%float EmptyString in
    let row := mkConstr (List.combine cind cval ++ [(s, (-1)%float)]) GRB_EQUAL lower
                        constrname in
    (ok ONone, with_constrs (constrs m ++ [row]) (with_vars (vars m ++ [slack]) m)).

Definition null_env : GRBenv := mkEnv ∅ EmptyString.

Definition optimize (l : GRBlibrary) (e : GRBenv) (m : GRBmodel) : reply * GRBmodel :=
  let o := engine l e m in
  if opt_error o =? 0
  then (ok ONone, mkModel (m_env m) (vars m) (constrs m) (ModelSense m) (ModelName m)
                          (opt_status o) (opt_objval o))
  else (failed (opt_error o), m).

(** *** Parameters of an environment *)

Definition same_kind (a b : param_value) : bool :=
  match a, b with
  | PInt _, PInt _ | PDbl _, PDbl _ | PStr _, PStr _ => true
  | _, _ => false
  end.

Definition get_param (l : GRBlibrary) (name : string) (kind : param_value) (e : GRBenv)
  : reply :=
  match param_default l name with
  | Some d =>
      if same_kind d kind then
        match default d (params e !! name) with
        | PInt z => ok (OInt z)
        | PDbl x => ok (ODbl x)
        | PStr s => ok (OStr (Some s))
        end
      else failed GRB_ERROR_UNKNOWN_PARAMETER
  | None => failed GRB_ERROR_UNKNOWN_PARAMETER
  end.

Definition set_param (l : GRBlibrary) (name : string) (v : param_value) (e : GRBenv)
  : reply * GRBenv :=
  match param_default l name with
  | Some d =>
      if same_kind d v then (ok ONone, mkEnv (<[name := v]> (params e)) (errormsg e))
      else (failed GRB_ERROR_UNKNOWN_PARAMETER, e)
  | None => (failed GRB_ERROR_UNKNOWN_PARAMETER, e)
  end.

(** *** Calls on the world *)

Definition on_model (h : handle) (f : GRBmodel -> reply * GRBmodel) (w : world)
  : reply * world :=
  match models w !! h with
  | Some m => let '(r, m') := f m in (r, set_models <[h := m']> w)
  | None => (failed GRB_ERROR_NULL_ARGUMENT, w)
  end.

Definition ask_model (h : handle) (f : GRBmodel -> reply) (w : world) : reply * world :=
  match models w !! h with
  | Some m => (f m, w)
  | None => (failed GRB_ERROR_NULL_ARGUMENT, w)
  end.

Definition on_env (h : handle) (f : GRBenv -> reply * GRBenv) (w : world) : reply * world :=
  match envs w !! h with
  | Some e => let '(r, e') := f e in (r, set_envs <[h := e']> w)
  | None => (failed GRB_ERROR_NULL_ARGUMENT, w)
  end.

Definition ask_env (h : handle) (f : GRBenv -> reply) (w : world) : reply * world :=
  match envs w !! h with
  | Some e => (f e, w)
  | None => (failed GRB_ERROR_NULL_ARGUMENT, w)
  end.

(** A new model gets an environment of its own, copied from [e]. *)
Definition alloc_model (e : GRBenv) (mk : handle -> GRBmodel) (w : world) : reply * world :=
  let he := fresh w in
  let hm := S he in
  (ok (OPtr hm), set_next hm (set_models <[hm := mk he]> (set_envs <[he := e]> w))).

Definition copy_name (n : option string) : string :=
  default "(null)"%string n ++ "_copy".

Definition native (c : call) (w : world) : reply * world :=
  match c with
  | GRBemptyenv =>
      let h := fresh w in (ok (OPtr h), set_next h (set_envs <[h := null_env]> w))
  | GRBstartenv e => ask_env e (fun _ => ok ONone) w
  | GRBgeterrormsg e =>
      (ok (OStr (Some (errormsg (default null_env (envs w !! e))))), w)
  | GRBsetintparam e n v => on_env e (set_param (lib w) n (PInt v)) w
  | GRBsetdblparam e n v => on_env e (set_param (lib w) n (PDbl v)) w
  | GRBsetstrparam e n v => on_env e (set_param (lib w) n (PStr v)) w
  | GRBgetintparam e n => ask_env e (get_param (lib w) n (PInt 0)) w
  | GRBgetdblparam e n => ask_env e (get_param (lib w) n (PDbl 0%float)) w
  | GRBgetstrparam e n => ask_env e (get_param (lib w) n (PStr EmptyString)) w
  | GRBnewmodel e =>
      match envs w !! e with
      | Some x => alloc_model x (fun he => mkModel he [] [] 1 None GRB_LOADED None) w
      | None => (failed GRB_ERROR_NULL_ARGUMENT, w)
      end
  | GRBcopymodel h =>
      match models w !! h with
      | Some m =>
          alloc_model (default null_env (envs w !! m_env m))
            (fun he => mkModel he (vars m) (constrs m) (ModelSense m)
                               (Some (copy_name (ModelName m))) (Status m) (ObjVal m)) w
      | None => (ok (OPtr NULL), w)
      end
  | GRBgetenv h =>
      (ok (OPtr (match models w !! h with Some m => m_env m | None => NULL end)), w)
  | GRBupdatemodel h => ask_model h (fun _ => ok ONone) w
  | GRBoptimize h =>
      on_model h (fun m => optimize (lib w) (default null_env (envs w !! m_env m)) m) w
  | GRBsetintattr h a v => on_model h (set_int_attr a v) w
  | GRBgetintattr h a => ask_model h (get_int_attr a) w
  | GRBgetdblattr h a => ask_model h (get_dbl_attr a) w
  | GRBsetstrattr h a v => on_model h (set_str_attr a v) w
  | GRBgetstrattr h a => ask_model h (get_str_attr a) w
  | GRBsetcharattrelement h a i v => on_model h (set_char_attr_element a i v) w
  | GRBgetcharattrelement h a i => ask_model h (get_char_attr_element a i) w
  | GRBsetdblattrelement h a i v => on_model h (set_dbl_attr_element a i v) w
  | GRBgetdblattrelement h a i => ask_model h (get_dbl_attr_element a i) w
  | GRBaddvar h vind vval obj lb ub vtype varname =>
      on_model h (add_var vind vval obj lb ub vtype varname) w
  | GRBaddconstr h cind cval sense rhs constrname =>
      on_model h (add_constr cind cval sense rhs constrname) w
  | GRBaddrangeconstr h cind cval lower upper constrname =>
      on_model h (add_range_constr cind cval lower upper constrname) w
  end.

(** The environment a call reports its error to. *)
Definition call_env (c : call) (w : world) : handle :=
  match c with
  | GRBemptyenv => NULL
  | GRBstartenv e | GRBgeterrormsg e
  | GRBsetintparam e _ _ | GRBsetdblparam e _ _ | GRBsetstrparam e _ _
  | GRBgetintparam e _ | GRBgetdblparam e _ | GRBgetstrparam e _
  | GRBnewmodel e => e
  | GRBcopymodel h | GRBgetenv h | GRBupdatemodel h | GRBoptimize h
  | GRBsetintattr h _ _ | GRBgetintattr h _ | GRBgetdblattr h _
  | GRBsetstrattr h _ _ | GRBgetstrattr h _
  | GRBsetcharattrelement h _ _ _ | GRBgetcharattrelement h _ _
  | GRBsetdblattrelement h _ _ _ | GRBgetdblattrelement h _ _
  | GRBaddvar h _ _ _ _ _ _ _ | GRBaddconstr h _ _ _ _ _
  | GRBaddrangeconstr h _ _ _ _ _ =>
      match models w !! h with Some m => m_env m | None => NULL end
  end.

Definition record_error (c : call) (code : Z) (w : world) : world :=
  if code =? 0 then w
  else set_envs (alter (fun e => mkEnv (params e) (error_text (lib w) c code))
                       (call_env c w)) w.

(** One native call: run it, keep its error text, and note it in the trace. *)
Definition native_call (c : call) (w : world) : reply * world :=
  let '(r, w1) := native c w in (r, log c (record_error c (fst r) w1)).

(** ** The monad of the methods *)

Inductive result (A : Type) : Type :=
| Ok (a : A) (w : world)
| Raise (e : exn) (w : world).
Arguments Ok {A} a w.
Arguments Raise {A} e w.

Definition M (A : Type) : Type := world -> result A.

Definition ret {A} (a : A) : M A := fun w => Ok a w.
Definition raise {A} (e : exn) : M A := fun w => Raise e w.
Definition bind {A B} (m : M A) (k : A -> M B) : M B :=
  fun w => match m w with
           | Ok a w' => k a w'
           | Raise e w' => Raise e w'
           end.

Declare Scope py_scope.
Delimit Scope py_scope with py.
Notation "x <- m ;; k" := (bind m (fun x => k))
  (at level 100, m at next level, right associativity) : py_scope.
Notation "m ;; k" := (bind m (fun _ => k))
  (at level 100, right associativity) : py_scope.
#[local] Open Scope py_scope.

Definition invoke (c : call) : M reply :=
  fun w => let '(r, w') := native_call c w in Ok r w'.

(** A conversion that may raise. *)
Definition convert {A} (x : exn + A) : M A :=
  match x with
  | inl e => raise e
  | inr a => ret a
  end.

(** A [noexcept] function with a C return type: an exception raised inside
    is reported and dropped, and the function returns zero. *)
Definition noexcept {A} (zero : A) (m : M A) : M A :=
  fun w => match m w with
           | Ok a w' => Ok a w'
           | Raise _ w' => Ok zero w'
           end.

(** What an out-parameter holds after the call. *)
Definition int_of (o : outval) : Z := match o with OInt z => z | _ => 0 end.
Definition dbl_of (o : outval) : float := match o with ODbl x => x | _ => 0%float end.
Definition chr_of (o : outval) : ascii := match o with OChr c => c | _ => Ascii.zero end.
Definition ptr_of (o : outval) : handle := match o with OPtr h => h | _ => NULL end.
Definition str_of (o : outval) : option string := match o with OStr s => s | _ => None end.

(** The fields of [self]; an object that was never initialised has null
    pointers. *)
Definition null_backend : Backend := mkBackend NULL NULL NULL PyNone.

Definition backend_of (w : world) (self : nat) : Backend :=
  default null_backend (objs w !! self).

Definition self_ (self : nat) : M Backend :=
  fun w => Ok (backend_of w self) w.

Definition setattr (self : nat) (f : Backend -> Backend) : M unit :=
  fun w => Ok tt (set_objs <[self := f (backend_of w self)]> w).

Definition new_object : M nat :=
  fun w => let p := fresh w in Ok p (set_next p (set_objs <[p := null_backend]> w)).

(** ** The module-level tables

    Each [dict] literal is the list of its items, in the order of the
    source, turned into a finite map. *)

Definition errors_items : list (Z * string) := [
  (10001, "GRB_ERROR_OUT_OF_MEMORY");
  (10002, "GRB_ERROR_NULL_ARGUMENT");
  (10003, "GRB_ERROR_INVALID_ARGUMENT");
  (10004, "GRB_ERROR_UNKNOWN_ATTRIBUTE");
  (10005, "GRB_ERROR_DATA_NOT_AVAILABLE");
  (10006, "GRB_ERROR_INDEX_OUT_OF_RANGE");
  (10007, "GRB_ERROR_UNKNOWN_PARAMETER");
  (10008, "GRB_ERROR_VALUE_OUT_OF_RANGE");
  (10009, "GRB_ERROR_NO_LICENSE");
  (10010, "GRB_ERROR_SIZE_LIMIT_EXCEEDED");
  (10011, "GRB_ERROR_CALLBACK");
  (10012, "GRB_ERROR_FILE_READ");
  (10013, "GRB_ERROR_FILE_WRITE");
  (10014, "GRB_ERROR_NUMERIC");
  (10015, "GRB_ERROR_IIS_NOT_INFEASIBLE");
  (10016, "GRB_ERROR_NOT_FOR_MIP");
  (10017, "GRB_ERROR_OPTIMIZATION_IN_PROGRESS");
  (10018, "GRB_ERROR_DUPLICATES");
  (10019, "GRB_ERROR_NODEFILE");
  (10020, "GRB_ERROR_Q_NOT_PSD")
]%string.

Definition errors : gmap Z string := list_to_map errors_items.

Definition mip_status_items : list (Z * string) := [
  (GRB_INFEASIBLE, "The problem is infeasible");
  (GRB_INF_OR_UNBD, "The problem is infeasible or unbounded");
  (GRB_UNBOUNDED, "The problem is unbounded");
  (GRB_ITERATION_LIMIT, "The iteration limit has been reached");
  (GRB_NODE_LIMIT, "The node limit has been reached");
  (GRB_TIME_LIMIT, "The time limit has been reached");
  (GRB_SOLUTION_LIMIT, "The solution limit has been reached")
]%string.

Definition mip_status : gmap Z string := list_to_map mip_status_items.

Definition parameters_type_items : list (string * string) := [
  ("AggFill", "int");
  ("Aggregate", "int");
  ("BarConvTol", "double");
  ("BarCorrectors", "int");
  ("BarHomogeneous", "int");
  ("BarOrder", "int");
  ("BarQCPConvTol", "double");
  ("BarIterLimit", "int");
  ("BranchDir", "int");
  ("CliqueCuts", "int");
  ("CoverCuts", "int");
  ("Crossover", "int");
  ("CrossoverBasis", "int");
  ("Cutoff", "double");
  ("CutAggPasses", "int");
  ("CutPasses", "int");
  ("Cuts", "int");
  ("DisplayInterval", "int");
  ("DualReductions", "int");
  ("FeasibilityTol", "double");
  ("FeasRelaxBigM", "double");
  ("FlowCoverCuts", "int");
  ("FlowPathCuts", "int");
  ("GomoryPasses", "int");
  ("GUBCoverCuts", "int");
  ("Heuristics", "double");
  ("IISMethod", "int");
  ("ImpliedCuts", "int");
  ("ImproveStartGap", "double");
  ("ImproveStartNodes", "double");
  ("ImproveStartTime", "double");
  ("InfUnbdInfo", "int");
  ("IntegralityFocus", "int");
  ("InputFile", "string");
  ("IntFeasTol", "double");
  ("IterationLimit", "double");
  ("LogFile", "string");
  ("LogToConsole", "int");
  ("MarkowitzTol", "double");
  ("Method", "int");
  ("MinRelNodes", "int");
  ("MIPFocus", "int");
  ("MIPGap", "double");
  ("MIPGapAbs", "double");
  ("MIPSepCuts", "int");
  ("MIQCPMethod", "int");
  ("MIRCuts", "int");
  ("ModKCuts", "int");
  ("NetworkCuts", "int");
  ("NodefileDir", "string");
  ("NodefileStart", "double");
  ("NodeLimit", "double");
  ("NodeMethod", "int");
  ("NormAdjust", "int");
  ("ObjScale", "double");
  ("OptimalityTol", "double");
  ("OutputFlag", "int");
  ("PerturbValue", "double");
  ("PreCrush", "int");
  ("PreDepRow", "int");
  ("PreDual", "int");
  ("PrePasses", "int");
  ("PreQLinearize", "int");
  ("Presolve", "int");
  ("PreSparsify", "int");
  ("PSDTol", "double");
  ("PumpPasses", "int");
  ("QCPDual", "int");
  ("Quad", "int");
  ("ResultFile", "string");
  ("RINS", "int");
  ("ScaleFlag", "int");
  ("Seed", "int");
  ("Sifting", "int");
  ("SiftMethod", "int");
  ("SimplexPricing", "int");
  ("SolutionLimit", "int");
  ("SolutionNumber", "int");
  ("SubMIPCuts", "int");
  ("SubMIPNodes", "int");
  ("Symmetry", "int");
  ("Threads", "int");
  ("TimeLimit", "double");
  ("VarBranch", "int");
  ("ZeroHalfCuts", "int");
  ("ZeroObjNodes", "int")
]%string.

Definition parameters_type : gmap string string := list_to_map parameters_type_items.

(** ** [check] *)

Definition error_of (r : reply) : Z := fst r.
Definition out (r : reply) : outval := snd r.

Definition check (env : handle) (error : Z) : M unit :=
  if negb (error =? 0) then
    msg <- invoke (GRBgeterrormsg env) ;;
    match errors !! error with
    | Some name =>
        raise (MIPSolverException
                 ("Gurobi: " ++ str_bytes (default EmptyString (str_of (out msg)))
                    ++ " (" ++ name ++ ")"))
    | None => raise (KeyError error)
    end
  else ret tt.

(** ** The methods of [GurobiBackend] *)

(** [cpdef int ncols(self) noexcept] *)
Definition ncols (self : nat) : M Z :=
  noexcept 0 (
    b <- self_ self ;;
    r <- invoke (GRBgetintattr (model b) "NumVars") ;;
    check (env b) (error_of r) ;;
    ret (int_of (out r))).

(** [cpdef int nrows(self) noexcept] *)
Definition nrows (self : nat) : M Z :=
  noexcept 0 (
    b <- self_ self ;;
    r <- invoke (GRBgetintattr (model b) "NumConstrs") ;;
    check (env b) (error_of r) ;;
    ret (int_of (out r))).

(** [cpdef bint is_maximization(self) noexcept] *)
Definition is_maximization (self : nat) : M bool :=
  noexcept false (
    b <- self_ self ;;
    r <- invoke (GRBgetintattr (model b) "ModelSense") ;;
    check (env b) (error_of r) ;;
    ret (int_of (out r) =? -1)).

Definition vtype_is (c : ascii) (self : nat) (index : Z) : M bool :=
  noexcept false (
    b <- self_ self ;;
    r <- invoke (GRBgetcharattrelement (model b) "VType" index) ;;
    check (env b) (error_of r) ;;
    ret (Ascii.eqb (chr_of (out r)) c)).

Definition is_variable_binary : nat -> Z -> M bool := vtype_is "B"%char.
Definition is_variable_integer : nat -> Z -> M bool := vtype_is "I"%char.
Definition is_variable_continuous : nat -> Z -> M bool := vtype_is "C"%char.

Definition set_sense (self : nat) (sense : Z) : M unit :=
  b <- self_ self ;;
  r <- invoke (GRBsetintattr (model b) "ModelSense" (if sense =? 1 then -1 else 1)) ;;
  check (env b) (error_of r) ;;
  u <- invoke (GRBupdatemodel (model b)) ;;
  check (env b) (error_of u).

Definition set_verbosity (self : nat) (level : Z) : M unit :=
  b <- self_ self ;;
  r <- invoke (GRBsetintparam (env b) "OutputFlag" (if negb (level =? 0) then 1 else 0)) ;;
  check (env b) (error_of r).

Definition set_variable_type (self : nat) (variable vtype : Z) : M unit :=
  b <- self_ self ;;
  r <- invoke (GRBsetcharattrelement (model b) "VType" variable
                 (if vtype =? 1 then "I"%char else if vtype =? 0 then "B"%char
                  else "C"%char)) ;;
  check (env b) (error_of r) ;;
  u <- invoke (GRBupdatemodel (model b)) ;;
  check (env b) (error_of u).

Definition __init__ (self : nat) (maximization : bool) : M unit :=
  r <- invoke GRBemptyenv ;;
  setattr self (fun b => mkBackend (ptr_of (out r)) (model b) (env b) (obj_constant_term b)) ;;
  b <- self_ self ;;
  if (env_master b =? NULL)%nat
  then raise (RuntimeError "Could not initialize Gurobi environment")
  else
    check (env_master b) (error_of r) ;;
    r <- invoke (GRBsetintparam (env_master b) "OutputFlag" 0) ;;
    check (env_master b) (error_of r) ;;
    r <- invoke (GRBstartenv (env_master b)) ;;
    check (env_master b) (error_of r) ;;
    r <- invoke (GRBnewmodel (env_master b)) ;;
    setattr self (fun b => mkBackend (env_master b) (ptr_of (out r)) (env b)
                                     (obj_constant_term b)) ;;
    b <- self_ self ;;
    e <- invoke (GRBgetenv (model b)) ;;
    setattr self (fun b => mkBackend (env_master b) (model b) (ptr_of (out e))
                                     (obj_constant_term b)) ;;
    b <- self_ self ;;
    if negb (error_of r =? 0)
    then raise (RuntimeError "Could not initialize Gurobi model")
    else
      r <- invoke (GRBsetintattr (model b) "ModelSense" (if maximization then -1 else 1)) ;;
      check (env b) (error_of r) ;;
      set_sense self (if maximization then 1 else -1) ;;
      set_verbosity self 0 ;;
      setattr self (fun b => mkBackend (env_master b) (model b) (env b) (PyFloat 0%float)).

(** [GurobiBackend(maximization)]: allocate the object, then initialise it. *)
Definition GurobiBackend (maximization : bool) : M nat :=
  p <- new_object ;;
  __init__ p maximization ;;
  ret p.

Definition or_default (v : pyval) (d : float) : pyval :=
  if is_None v then PyFloat d else v.

(** [cpdef int add_variable(...) except -1] *)
Definition add_variable (self : nat) (lower_bound upper_bound : pyval)
    (binary continuous integer : pyval) (obj : pyval) (name : option string)
    (coefficients : option (list (Z * float))) : M Z :=
  let vtype := (Z.b2z (truthy binary) + Z.b2z (truthy continuous) + Z.b2z (truthy integer)) in
  if negb (vtype =? 0) && negb (vtype =? 1)
  then raise (ValueError
          "Exactly one parameter of 'binary', 'integer' and 'continuous' must be 'True'.")
  else
    let continuous := if vtype =? 0 then PyBool true else continuous in
    let vtype := if truthy binary then GRB_BINARY
                 else if truthy continuous then GRB_CONTINUOUS
                 else if truthy integer then GRB_INTEGER
                 else ascii_of_nat (Z.to_nat vtype) in
    b <- self_ self ;;
    name <- match name with
            | None => n <- ncols self ;;
                      if n <? 0 then raise (ValueError "negative count")
                      else ret ("x_" ++ zero_bytes (Z.to_nat n))%string
            | Some s => ret s
            end ;;
    let upper_bound := or_default upper_bound GRB_INFINITY in
    let lower_bound := or_default lower_bound (- GRB_INFINITY)%float in
    let entries := default [] coefficients in
    c_obj <- convert (as_double obj) ;;
    c_lb <- convert (as_double lower_bound) ;;
    c_ub <- convert (as_double upper_bound) ;;
    r <- invoke (GRBaddvar (model b) (map fst entries) (map snd entries)
                   c_obj c_lb c_ub vtype (c_str name)) ;;
    check (env b) (error_of r) ;;
    u <- invoke (GRBupdatemodel (model b)) ;;
    check (env b) (error_of u) ;;
    n <- ncols self ;;
    if n - 1 =? -1 then raise SystemError else ret (n - 1).

Definition objective_coefficient (self : nat) (variable : Z) (coeff : pyval) : M pyval :=
  b <- self_ self ;;
  if truthy coeff then
    c <- convert (as_double coeff) ;;
    r <- invoke (GRBsetdblattrelement (model b) "Obj" variable c) ;;
    check (env b) (error_of r) ;;
    u <- invoke (GRBupdatemodel (model b)) ;;
    check (env b) (error_of u) ;;
    ret PyNone
  else
    r <- invoke (GRBgetdblattrelement (model b) "Obj" variable) ;;
    check (env b) (error_of r) ;;
    ret (PyFloat (dbl_of (out r))).

Definition problem_name (self : nat) (name : option string) : M (option string) :=
  b <- self_ self ;;
  match name with
  | Some s =>
      r <- invoke (GRBsetstrattr (model b) "ModelName" s) ;;
      check (env b) (error_of r) ;;
      u <- invoke (GRBupdatemodel (model b)) ;;
      check (env b) (error_of u) ;;
      ret None
  | None =>
      r <- invoke (GRBgetstrattr (model b) "ModelName") ;;
      check (env b) (error_of r) ;;
      ret (Some (default EmptyString (str_of (out r))))
  end.

(** The loop of [set_objective]: [for value in coeff], counting [i]. *)
Fixpoint set_objective_loop (b : Backend) (i : Z) (coeff : list pyval) : M unit :=
  match coeff with
  | [] => ret tt
  | v :: rest =>
      value <- convert (as_double v) ;;
      r <- invoke (GRBsetdblattrelement (model b) "Obj" i value) ;;
      check (env b) (error_of r) ;;
      set_objective_loop b (i + 1) rest
  end.

Definition set_objective (self : nat) (coeff : list pyval) (d : pyval) : M unit :=
  b <- self_ self ;;
  set_objective_loop b 0 coeff ;;
  u <- invoke (GRBupdatemodel (model b)) ;;
  check (env b) (error_of u) ;;
  setattr self (fun b => mkBackend (env_master b) (model b) (env b) d).

Definition no_bound_msg : string :=
  "at least one of 'upper_bound' or 'lower_bound' must be set".

Definition add_linear_constraint (self : nat) (coefficients : list (Z * float))
    (lower_bound upper_bound : pyval) (name : option string) : M unit :=
  if is_None lower_bound && is_None upper_bound
  then raise (ValueError no_bound_msg)
  else
    b <- self_ self ;;
    let row_i := map fst coefficients in
    let row_values := map snd coefficients in
    let name := default EmptyString name in
    r <- (if negb (is_None upper_bound) && is_None lower_bound then
            ub <- convert (as_double upper_bound) ;;
            invoke (GRBaddconstr (model b) row_i row_values GRB_LESS_EQUAL ub name)
          else if negb (is_None lower_bound) && is_None upper_bound then
            lb <- convert (as_double lower_bound) ;;
            invoke (GRBaddconstr (model b) row_i row_values GRB_GREATER_EQUAL lb name)
          else if negb (is_None upper_bound) && negb (is_None lower_bound) then
            if py_eq lower_bound upper_bound then
              lb <- convert (as_double lower_bound) ;;
              invoke (GRBaddconstr (model b) row_i row_values GRB_EQUAL lb name)
            else
              lb <- convert (as_double lower_bound) ;;
              ub <- convert (as_double upper_bound) ;;
              invoke (GRBaddrangeconstr (model b) row_i row_values lb ub name)
          else raise (ValueError no_bound_msg)) ;;
    check (env b) (error_of r).

Definition row_bounds (self : nat) (index : Z) : M (option float * option float) :=
  b <- self_ self ;;
  s <- invoke (GRBgetcharattrelement (model b) "Sense" index) ;;
  check (env b) (error_of s) ;;
  d <- invoke (GRBgetdblattrelement (model b) "RHS" index) ;;
  check (env b) (error_of d) ;;
  let sense := chr_of (out s) in
  let d := dbl_of (out d) in
  if Ascii.eqb sense ">" then ret (Some d, None)
  else if Ascii.eqb sense "<" then ret (None, Some d)
  else ret (Some d, Some d).

(** [None if lb <= -GRB_INFINITY else lb] *)
Definition lower_or_None (lb : float) : option float :=
  if (lb <=? - GRB_INFINITY)%float then None else Some lb.

(** [None if ub >= GRB_INFINITY else ub] *)
Definition upper_or_None (ub : float) : option float :=
  if (GRB_INFINITY <=? ub)%float then None else Some ub.


Definition unknown_status_msg (status : Z) : string :=
  "unknown error during call to GRBoptimize : " ++ str_int status.

(** [cpdef int solve(self) except -1] *)
Definition solve (self : nat) : M Z :=
  b <- self_ self ;;
  r <- invoke (GRBoptimize (model b)) ;;
  check (env b) (error_of r) ;;
  s <- invoke (GRBgetintattr (model b) "Status") ;;
  check (env b) (error_of s) ;;
  let status := int_of (out s) in
  if negb (status =? GRB_OPTIMAL)
  then raise (MIPSolverException
                ("Gurobi: " ++ default (unknown_status_msg status) (mip_status !! status)))
  else ret 0.

Definition get_objective_value (self : nat) : M float :=
  b <- self_ self ;;
  r <- invoke (GRBgetdblattr (model b) "ObjVal") ;;
  check (env b) (error_of r) ;;
  d <- convert (as_double (obj_constant_term b)) ;;
  ret (dbl_of (out r) + d)%float.

Definition variable_upper_bound (self : nat) (index : Z) (value : pyval)
  : M (option float) :=
  b <- self_ self ;;
  if negb (is_False value) then
    v <- convert (as_double (or_default value GRB_INFINITY)) ;;
    r <- invoke (GRBsetdblattrelement (model b) "UB" index v) ;;
    check (env b) (error_of r) ;;
    u <- invoke (GRBupdatemodel (model b)) ;;
    check (env b) (error_of u) ;;
    ret None
  else
    r <- invoke (GRBgetdblattrelement (model b) "UB" index) ;;
    check (env b) (error_of r) ;;
    ret (upper_or_None (dbl_of (out r))).

Definition variable_lower_bound (self : nat) (index : Z) (value : pyval)
  : M (option float) :=
  b <- self_ self ;;
  if negb (is_False value) then
    v <- convert (as_double (or_default value (- GRB_INFINITY)%float)) ;;
    r <- invoke (GRBsetdblattrelement (model b) "LB" index v) ;;
    check (env b) (error_of r) ;;
    u <- invoke (GRBupdatemodel (model b)) ;;
    check (env b) (error_of u) ;;
    ret None
  else
    r <- invoke (GRBgetdblattrelement (model b) "LB" index) ;;
    check (env b) (error_of r) ;;
    ret (lower_or_None (dbl_of (out r))).

Definition as_str (v : pyval) : exn + string :=
  match v with
  | PyStr s => inr s
  | _ => inl TypeError
  end.

(** The two aliases of [solver_parameter]. *)
Definition canonical_name (name : string) : string :=
  if String.eqb name "timelimit" then "TimeLimit"
  else if String.eqb (lower name) "logfile" then "LogFile"
  else name.

Definition not_available_msg : string :=
  "This parameter is not available. Enabling it may not be so hard, though.".

Definition solver_parameter (self : nat) (name : string) (value : pyval) : M pyval :=
  b <- self_ self ;;
  let name := canonical_name name in
  match parameters_type !! name with
  | None => raise (ValueError not_available_msg)
  | Some t =>
      if String.eqb t "int" then
        if is_None value then
          r <- invoke (GRBgetintparam (env b) name) ;;
          check (env b) (error_of r) ;;
          ret (PyInt (int_of (out r)))
        else
          v <- convert (as_int value) ;;
          r <- invoke (GRBsetintparam (env b) name v) ;;
          check (env b) (error_of r) ;;
          ret PyNone
      else if String.eqb t "double" then
        if is_None value then
          r <- invoke (GRBgetdblparam (env b) name) ;;
          check (env b) (error_of r) ;;
          ret (PyFloat (dbl_of (out r)))
        else
          v <- convert (as_double value) ;;
          r <- invoke (GRBsetdblparam (env b) name v) ;;
          check (env b) (error_of r) ;;
          ret PyNone
      else if String.eqb t "string" then
        if is_None value then
          r <- invoke (GRBgetstrparam (env b) name) ;;
          check (env b) (error_of r) ;;
          ret (PyStr (default EmptyString (str_of (out r))))
        else
          v <- convert (as_str value) ;;
          r <- invoke (GRBsetstrparam (env b) name v) ;;
          check (env b) (error_of r) ;;
          ret PyNone
      else raise (RuntimeError "This should not happen.")
  end.

Definition __copy__ (self : nat) : M nat :=
  m <- is_maximization self ;;
  p <- GurobiBackend m ;;
  b <- self_ self ;;
  r <- invoke (GRBcopymodel (model b)) ;;
  setattr p (fun q => mkBackend (env_master q) (ptr_of (out r)) (env q)
                                (obj_constant_term q)) ;;
  q <- self_ p ;;
  e <- invoke (GRBgetenv (model q)) ;;
  setattr p (fun q => mkBackend (env_master q) (model q) (ptr_of (out e))
                                (obj_constant_term q)) ;;
  name <- problem_name self None ;;
  problem_name p name ;;
  ret p.

(** ** Observations on a world *)

(** The native model behind a backend object. *)
Definition model_of (w : world) (self : nat) : option GRBmodel :=
  models w !! model (backend_of w self).

(** The world a computation ends in, whether it returned or raised. *)
Definition final {A} (r : result A) : world :=
  match r with
  | Ok _ w => w
  | Raise _ w => w
  end.

(** The native calls a computation added to the trace. *)
Definition calls_made {A} (m : M A) (w : world) : list call :=
  drop (length (trace w)) (trace (final (m w))).

(** ** A sample library and world, for running the methods *)

Definition sample_defaults (name : string) : option param_value :=
  if String.eqb name "OutputFlag" then Some (PInt 1)
  else if String.eqb name "VarBranch" then Some (PInt (-1))
  else if String.eqb name "TimeLimit" then Some (PDbl GRB_INFINITY)
  else if String.eqb name "LogFile" then Some (PStr EmptyString)
  else None.

(** An engine that reports [status] and objective value [objval]. *)
Definition sample_library (status : Z) (objval : float) : GRBlibrary :=
  mkLibrary (fun _ _ => mkOutcome 0 status (Some objval))
            (fun _ code => ("error " ++ str_int code)%string)
            sample_defaults.

Definition empty_world (l : GRBlibrary) : world := mkWorld l ∅ ∅ ∅ 0 [].

Definition F : pyval := PyBool false.

(** A backend with two nonnegative continuous variables. *)
Definition two_variables : M nat :=
  p <- GurobiBackend true ;;
  add_variable p (PyFloat 0) PyNone F F F (PyFloat 0) None None ;;
  add_variable p (PyFloat 0) PyNone F F F (PyFloat 0) None None ;;
  ret p.

(** ** Definitions used to state the properties *)

(** The model after the engine reported outcome [o]. *)
Definition solved (o : outcome) (m : GRBmodel) : GRBmodel :=
  mkModel (m_env m) (vars m) (constrs m) (ModelSense m) (ModelName m)
          (opt_status o) (opt_objval o).

(** What the engine of the world's library reports for model [m]. *)
Definition outcome_of (w : world) (m : GRBmodel) : outcome :=
  engine (lib w) (default null_env (envs w !! m_env m)) m.

Definition status_message (s : Z) : string :=
  default (unknown_status_msg s) (mip_status !! s).

(** The statuses the table [mip_status] knows. *)
Definition recognized_statuses : list Z :=
  [GRB_INFEASIBLE; GRB_INF_OR_UNBD; GRB_UNBOUNDED; GRB_ITERATION_LIMIT;
   GRB_NODE_LIMIT; GRB_TIME_LIMIT; GRB_SOLUTION_LIMIT].

(** The example of [solve]'s docstring: the sum of two integer variables
    must lie in [1.2, 1.7]; the engine answers with [status]. *)
Definition infeasible_example (status : Z) : world :=
  final ((p <- two_variables ;;
          add_linear_constraint p [(0, 1%float); (1, 1%float)]
                                (PyFloat 1.2) (PyFloat 1.7) None ;;
          set_variable_type p 0 1 ;;
          set_variable_type p 1 1)
           (empty_world (sample_library status 0%float))).

Definition empty_model : GRBmodel := mkModel NULL [] [] 1 None GRB_LOADED None.

Definition the_model (w : world) (self : nat) : GRBmodel :=
  default empty_model (model_of w self).

(** [add_variable]'s count of the requested type flags. *)
Definition flags_requested (binary continuous integer : pyval) : Z :=
  Z.b2z (truthy binary) + Z.b2z (truthy continuous) + Z.b2z (truthy integer).

Definition exactly_one_msg : string :=
  "Exactly one parameter of 'binary', 'integer' and 'continuous' must be 'True'.".

(** A method that is one native call on the backend's handles, followed by
    [check]. *)
Definition one_call (self : nat) (c : Backend -> call) : M unit :=
  b <- self_ self ;;
  r <- invoke (c b) ;;
  check (env b) (error_of r).

(** A method that is one native call followed by [check], returning what
    [conv] makes of the call's output. *)
Definition param_call (self : nat) (c : Backend -> call) (conv : outval -> pyval)
  : M pyval :=
  b <- self_ self ;;
  r <- invoke (c b) ;;
  check (env b) (error_of r) ;;
  ret (conv (out r)).

Definition kind_ok (t : string) : bool :=
  String.eqb t "int" || String.eqb t "double" || String.eqb t "string".

(** ** Triples

    [hoare P m Q]: from a world satisfying [P], if [m] returns [a] in world
    [w'] then [Q a w']. [keeps P m]: [P] survives [m], whether it returns
    or raises. *)
Definition hoare {A} (P : world -> Prop) (m : M A) (Q : A -> world -> Prop) : Prop :=
  forall w, P w -> match m w with
                   | Ok a w' => Q a w'
                   | Raise _ _ => True
                   end.

Definition keeps {A} (P : world -> Prop) (m : M A) : Prop :=
  forall w, P w -> P (final (m w)).

(** [coeff == 0] *)
Definition is_zero (coeff : pyval) : Prop := py_eq coeff (PyInt 0) = true.

(** A call that only queries a model or an environment. *)
Definition query (c : call) : bool :=
  match c with
  | GRBstartenv _ | GRBgeterrormsg _
  | GRBgetintparam _ _ | GRBgetdblparam _ _ | GRBgetstrparam _ _
  | GRBgetenv _ | GRBupdatemodel _
  | GRBgetintattr _ _ | GRBgetdblattr _ _ | GRBgetstrattr _ _
  | GRBgetcharattrelement _ _ _ | GRBgetdblattrelement _ _ _ => true
  | _ => false
  end.

(** Two variables with objective [2 x0 + 5 x1 + 7]. *)
Definition objective_example : world :=
  final ((p <- two_variables ;;
          set_objective p [PyInt 2; PyInt 5] (PyFloat 7))
           (empty_world (sample_library GRB_OPTIMAL 7.5%float))).

(** The two branches of a bound accessor. *)
Definition write_bound (self : nat) (attr : string) (index : Z) (value : pyval)
    (unbounded : float) : M (option float) :=
  b <- self_ self ;;
  v <- convert (as_double (or_default value unbounded)) ;;
  r <- invoke (GRBsetdblattrelement (model b) attr index v) ;;
  check (env b) (error_of r) ;;
  u <- invoke (GRBupdatemodel (model b)) ;;
  check (env b) (error_of u) ;;
  ret None.

Definition read_bound (self : nat) (attr : string) (index : Z)
    (conv : float -> option float) : M (option float) :=
  b <- self_ self ;;
  r <- invoke (GRBgetdblattrelement (model b) attr index) ;;
  check (env b) (error_of r) ;;
  ret (conv (dbl_of (out r))).

(** The model after attribute [f] of variable [i] was set. *)
Definition updated (f : GRBvar -> GRBvar) (i : Z) (m : GRBmodel) : GRBmodel :=
  with_vars (alter f (Z.to_nat i) (vars m)) m.

(** The constant term the object [p] holds. *)
Definition constant_of (p : nat) (o : gmap nat Backend) : pyval :=
  obj_constant_term (default null_backend (o !! p)).

(** The two variables of [two_variables], before any row is added. *)
Definition two_variables_world : world :=
  final (two_variables (empty_world (sample_library GRB_OPTIMAL 0%float))).

(** ** Further native entry points: row queries, row deletion, element names

    Modelled from the spec: three more entry points of the solver's C API,
    reached like the others through extern declarations outside the [.pyx]
    file: the query of a block of rows, the deletion of rows (the rows after
    a deleted one move down), and the name of a variable or row. They act
    on the models of the [world]. Their calls are not entered in [trace],
    which lists the calls of type [call], and the library's text for their
    failures is not kept: the environment keeps the text it had. *)
Inductive more_call : Type :=
| GRBgetstrattrelement (model : handle) (attr : string) (i : Z)
| GRBgetconstrs (model : handle) (arrays : bool) (start len : Z)
| GRBdelconstrs (model : handle) (ind : list Z).

Inductive more_out : Type :=
| MNone
| MStr (s : option string)
| MRows (numnz : Z) (cind : list Z) (cval : list float).

Definition more_reply : Type := Z * more_out.

Definition get_str_attr_element (attr : string) (i : Z) (m : GRBmodel) : more_reply :=
  if String.eqb attr "VarName" then
    match var_at i m with
    | Some v => (0, MStr (Some (VarName v)))
    | None => (GRB_ERROR_INDEX_OUT_OF_RANGE, MNone)
    end
  else if String.eqb attr "ConstrName" then
    match constr_at i m with
    | Some c => (0, MStr (Some (ConstrName c)))
    | None => (GRB_ERROR_INDEX_OUT_OF_RANGE, MNone)
    end
  else (GRB_ERROR_UNKNOWN_ATTRIBUTE, MNone).

(** The entries of the rows [start, start + len), one row after the other;
    the arrays are filled only when the caller passes them. *)
Definition get_constrs (arrays : bool) (start len : Z) (m : GRBmodel) : more_reply :=
  if (0 <=? start) && (0 <=? len) && (start + len <=? Z.of_nat (length (constrs m))) then
    let entries :=
      concat (map coefs (take (Z.to_nat len) (drop (Z.to_nat start) (constrs m)))) in
    (0, MRows (Z.of_nat (length entries))
              (if arrays then map fst entries else [])
              (if arrays then map snd entries else []))
  else (GRB_ERROR_INDEX_OUT_OF_RANGE, MNone).

(** The rows that stay, [k] being the index of the first of [cs]. *)
Fixpoint drop_rows (ind : list Z) (k : Z) (cs : list GRBconstr) : list GRBconstr :=
  match cs with
  | [] => []
  | c :: rest =>
      if existsb (Z.eqb k) ind then drop_rows ind (k + 1) rest
      else c :: drop_rows ind (k + 1) rest
  end.

Definition del_constrs (ind : list Z) (m : GRBmodel) : more_reply * GRBmodel :=
  if all_in_range ind (constrs m)
  then ((0, MNone), with_constrs (drop_rows ind 0 (constrs m)) m)
  else ((GRB_ERROR_INDEX_OUT_OF_RANGE, MNone), m).

Definition native_more (c : more_call) (w : world) : more_reply * world :=
  match c with
  | GRBgetstrattrelement h a i =>
      match models w !! h with
      | Some m => (get_str_attr_element a i m, w)
      | None => ((GRB_ERROR_NULL_ARGUMENT, MNone), w)
      end
  | GRBgetconstrs h arrays start len =>
      match models w !! h with
      | Some m => (get_constrs arrays start len m, w)
      | None => ((GRB_ERROR_NULL_ARGUMENT, MNone), w)
      end
  | GRBdelconstrs h ind =>
      match models w !! h with
      | Some m => let '(r, m') := del_constrs ind m in (r, set_models <[h := m']> w)
      | None => ((GRB_ERROR_NULL_ARGUMENT, MNone), w)
      end
  end.

Definition invoke_more (c : more_call) : M more_reply :=
  fun w => let '(r, w') := native_more c w in Ok r w'.

Definition numnz_of (o : more_out) : Z :=
  match o with MRows n _ _ => n | _ => 0 end.
Definition cind_of (o : more_out) : list Z :=
  match o with MRows _ i _ => i | _ => [] end.
Definition cval_of (o : more_out) : list float :=
  match o with MRows _ _ v => v | _ => [] end.

(** ** Further methods of [GurobiBackend] *)



(** [row]: the first call asks for the number of entries, the second fills
    the two arrays, and the loop copies [length[0]] entries of each. *)
Definition row (self : nat) (index : Z) : M (list Z * list float) :=
  b <- self_ self ;;
  r1 <- invoke_more (GRBgetconstrs (model b) false index 1) ;;
  check (env b) (fst r1) ;;
  r2 <- invoke_more (GRBgetconstrs (model b) true index 1) ;;
  check (env b) (fst r2) ;;
  let length := Z.to_nat (numnz_of (snd r2)) in
  ret (take length (cind_of (snd r2)), take length (cval_of (snd r2))).



(** ** Definitions used to state the further properties *)






(** ** What the constructor leaves behind *)

(** An environment whose only parameter set is [OutputFlag = 0]. *)
Definition quiet_env : GRBenv := mkEnv (<["OutputFlag" := PInt 0]> ∅) EmptyString.

(** The model of a new backend, in environment [e]. *)
Definition new_model (e : handle) (maximization : bool) : GRBmodel :=
  mkModel e [] [] (if maximization then -1 else 1) None GRB_LOADED None.

(** The native calls of [__init__], when the last address in use is [n]. *)
Definition init_calls (n : nat) (maximization : bool) : list call :=
  [ GRBemptyenv; GRBsetintparam (S n) "OutputFlag" 0; GRBstartenv (S n);
    GRBnewmodel (S n); GRBgetenv (S (S (S n)));
    GRBsetintattr (S (S (S n))) "ModelSense" (if maximization then -1 else 1);
    GRBsetintattr (S (S (S n))) "ModelSense" (if maximization then -1 else 1);
    GRBupdatemodel (S (S (S n))); GRBsetintparam (S (S n)) "OutputFlag" 0 ].


(** * Properties *)

(** ** Basic facts about the monad and [check] *)

Lemma check_zero (e : handle) (w : world) : check e 0 w = Ok tt w.
Proof. reflexivity. Qed.

Lemma native_geterrormsg (e : handle) (w : world) :
  native_call (GRBgeterrormsg e) w =
  (ok (OStr (Some (errormsg (default null_env (envs w !! e))))), log (GRBgeterrormsg e) w).
Proof. reflexivity. Qed.

(** A listed nonzero code raises the solver exception, naming the code. *)
Lemma check_listed (e : handle) (error : Z) (name : string) (w : world) :
  errors !! error = Some name ->
  check e error w =
  Raise (MIPSolverException
           ("Gurobi: " ++ str_bytes (errormsg (default null_env (envs w !! e)))
              ++ " (" ++ name ++ ")"))
        (log (GRBgeterrormsg e) w).
Proof.
  intros H. unfold check.
  destruct (error =? 0) eqn:E.
  - apply Z.eqb_eq in E. subst. discriminate H.
  - cbn [negb]. unfold bind, invoke. rewrite native_geterrormsg. rewrite H. reflexivity.
Qed.

Lemma check_unlisted (e : handle) (error : Z) (w : world) :
  error <> 0 -> errors !! error = None ->
  check e error w = Raise (KeyError error) (log (GRBgeterrormsg e) w).
Proof.
  intros Hnz H. unfold check.
  destruct (error =? 0) eqn:E.
  - apply Z.eqb_eq in E. contradiction.
  - cbn [negb]. unfold bind, invoke. rewrite native_geterrormsg. rewrite H. reflexivity.
Qed.

(** C1: a nonzero error code outside the table [errors] does not give a
    solver exception with a generic message: [errors[error]] raises
    [KeyError], after the native error text has been fetched. The code
    10021 is the first one past the table. *)
Theorem check_unlisted_code_raises_KeyError :
  forall (e : handle) (w : world),
    check e 10021 w = Raise (KeyError 10021) (log (GRBgeterrormsg e) w)
    /\ forall msg w', check e 10021 w <> Raise (MIPSolverException msg) w'.
Proof.
  intros e w.
  assert (H : check e 10021 w = Raise (KeyError 10021) (log (GRBgeterrormsg e) w)).
  { apply check_unlisted; [lia | reflexivity]. }
  split; [exact H |]. intros msg w'. rewrite H. discriminate.
Qed.

(** ** Native calls that succeed *)

Lemma invoke_optimize (h : handle) (m : GRBmodel) (w : world) :
  models w !! h = Some m ->
  opt_error (outcome_of w m) = 0 ->
  invoke (GRBoptimize h) w =
  Ok (ok ONone) (log (GRBoptimize h) (set_models <[h := solved (outcome_of w m) m]> w)).
Proof.
  intros Hm He. unfold invoke, native_call, native, on_model. rewrite Hm.
  unfold optimize. fold (outcome_of w m). rewrite He. reflexivity.
Qed.

Lemma invoke_ask_model (c : call) (h : handle) (f : GRBmodel -> reply) (m : GRBmodel)
    (w : world) :
  native c w = ask_model h f w ->
  models w !! h = Some m ->
  fst (f m) = 0 ->
  invoke c w = Ok (f m) (log c w).
Proof.
  intros Hc Hm He. unfold invoke, native_call. rewrite Hc. unfold ask_model. rewrite Hm.
  unfold record_error. rewrite He. reflexivity.
Qed.

Lemma models_log_insert (c : call) (h : handle) (m : GRBmodel) (w : world) :
  models (log c (set_models <[h := m]> w)) !! h = Some m.
Proof. cbn. apply lookup_insert_eq. Qed.

Lemma solve_after_optimize (self : nat) (m : GRBmodel) (w : world) :
  model_of w self = Some m ->
  opt_error (outcome_of w m) = 0 ->
  let s := opt_status (outcome_of w m) in
  exists w',
    solve self w =
    if s =? GRB_OPTIMAL then Ok 0 w'
    else Raise (MIPSolverException ("Gurobi: " ++ status_message s)) w'.
Proof.
  intros Hm He s. unfold model_of in Hm. unfold solve, bind, self_.
  rewrite (invoke_optimize _ _ _ Hm He). rewrite check_zero.
  rewrite (invoke_ask_model _ (model (backend_of w self)) (get_int_attr "Status")
             (solved (outcome_of w m) m)); [| reflexivity | apply models_log_insert | reflexivity].
  rewrite check_zero. cbn [out snd get_int_attr String.eqb Ascii.eqb Bool.eqb ok int_of solved Status].
  fold s. destruct (s =? GRB_OPTIMAL); cbn [negb]; eexists; reflexivity.
Qed.

Lemma mip_status_unrecognized (s : Z) :
  s ∉ recognized_statuses -> mip_status !! s = None.
Proof. intros H. apply not_elem_of_list_to_map_1. exact H. Qed.

(** C3: when the optimizer returns with a terminal status, [solve] succeeds
    exactly when the status is [GRB_OPTIMAL]; for any other status it raises
    [MIPSolverException], with the reason of the table [mip_status] for the
    seven statuses listed there and with the generic message carrying the
    raw status code for every other one. *)
Theorem solve_raises_unless_optimal (self : nat) (m : GRBmodel) (w : world) :
  model_of w self = Some m ->
  opt_error (outcome_of w m) = 0 ->
  let s := opt_status (outcome_of w m) in
  (s = GRB_OPTIMAL -> exists w', solve self w = Ok 0 w') /\
  (s <> GRB_OPTIMAL ->
   exists msg w',
     solve self w = Raise (MIPSolverException ("Gurobi: " ++ msg)) w' /\
     (s = GRB_INFEASIBLE -> msg = "The problem is infeasible"%string) /\
     (s = GRB_INF_OR_UNBD -> msg = "The problem is infeasible or unbounded"%string) /\
     (s = GRB_UNBOUNDED -> msg = "The problem is unbounded"%string) /\
     (s = GRB_ITERATION_LIMIT -> msg = "The iteration limit has been reached"%string) /\
     (s = GRB_NODE_LIMIT -> msg = "The node limit has been reached"%string) /\
     (s = GRB_TIME_LIMIT -> msg = "The time limit has been reached"%string) /\
     (s = GRB_SOLUTION_LIMIT -> msg = "The solution limit has been reached"%string) /\
     (s ∉ recognized_statuses ->
      msg = ("unknown error during call to GRBoptimize : " ++ str_int s)%string)).
Proof.
  intros Hm He s.
  destruct (solve_after_optimize self m w Hm He) as [w' Hs]. fold s in Hs.
  split.
  - intros Hopt. exists w'. rewrite Hs, Hopt. reflexivity.
  - intros Hne. exists (status_message s), w'.
    apply Z.eqb_neq in Hne. rewrite Hne in Hs.
    split; [exact Hs |].
    repeat split; try (intros ->; reflexivity).
    intros Hun. unfold status_message. rewrite (mip_status_unrecognized s Hun). reflexivity.
Qed.

Lemma solve_raises_unless_optimal_witness :
  exists w',
    solve 1%nat (infeasible_example GRB_INFEASIBLE) =
    Raise (MIPSolverException "Gurobi: The problem is infeasible") w'.
Proof.
  destruct (solve_raises_unless_optimal 1%nat
              (the_model (infeasible_example GRB_INFEASIBLE) 1%nat)
              (infeasible_example GRB_INFEASIBLE))
    as [_ H]; [vm_compute; reflexivity | vm_compute; reflexivity |].
  destruct H as (msg & w' & Hs & Hinf & _); [vm_compute; discriminate |].
  exists w'. rewrite Hs, (Hinf eq_refl). reflexivity.
Defined.

Lemma invoke_on_model (c : call) (h : handle) (f : GRBmodel -> reply * GRBmodel)
    (m m' : GRBmodel) (o : outval) (w : world) :
  native c w = on_model h f w ->
  models w !! h = Some m ->
  f m = (ok o, m') ->
  invoke c w = Ok (ok o) (log c (set_models <[h := m']> w)).
Proof.
  intros Hc Hm Hf. unfold invoke, native_call. rewrite Hc. unfold on_model.
  rewrite Hm, Hf. reflexivity.
Qed.

Lemma invoke_updatemodel (h : handle) (m : GRBmodel) (w : world) :
  models w !! h = Some m ->
  invoke (GRBupdatemodel h) w = Ok (ok ONone) (log (GRBupdatemodel h) w).
Proof.
  intros Hm. apply (invoke_ask_model _ h (fun _ => ok ONone) m); auto.
Qed.

Lemma ncols_ok (self : nat) (m : GRBmodel) (w : world) :
  model_of w self = Some m ->
  ncols self w =
  Ok (Z.of_nat (length (vars m)))
     (log (GRBgetintattr (model (backend_of w self)) "NumVars") w).
Proof.
  intros Hm. unfold ncols, noexcept, bind, self_.
  rewrite (invoke_ask_model _ (model (backend_of w self)) (get_int_attr "NumVars") m);
    [| reflexivity | exact Hm | reflexivity].
  reflexivity.
Qed.

Lemma model_of_log (c : call) (w : world) (self : nat) :
  model_of (log c w) self = model_of w self.
Proof. reflexivity. Qed.

Lemma model_of_log_insert (c : call) (m : GRBmodel) (w : world) (self : nat) :
  model_of (log c (set_models <[model (backend_of w self) := m]> w)) self = Some m.
Proof. unfold model_of. cbn. apply lookup_insert_eq. Qed.

Lemma var_at_last (m : GRBmodel) (vs : list GRBvar) (v : GRBvar) :
  vars m = vs ++ [v] -> var_at (Z.of_nat (length vs)) m = Some v.
Proof.
  intros H. unfold var_at, in_range. rewrite H, length_app. cbn [length].
  replace (0 <=? Z.of_nat (length vs)) with true by (symmetry; apply Z.leb_le; lia).
  replace (Z.of_nat (length vs) <? Z.of_nat (length vs + 1)) with true
    by (symmetry; apply Z.ltb_lt; lia).
  cbn [andb]. rewrite Nat2Z.id. apply list_lookup_middle. reflexivity.
Qed.

Lemma is_variable_continuous_ok (self : nat) (m : GRBmodel) (v : GRBvar) (i : Z)
    (w : world) :
  model_of w self = Some m ->
  var_at i m = Some v ->
  is_variable_continuous self i w =
  Ok (Ascii.eqb (VType v) "C")
     (log (GRBgetcharattrelement (model (backend_of w self)) "VType" i) w).
Proof.
  intros Hm Hv.
  assert (Hr : get_char_attr_element "VType" i m = ok (OChr (VType v))).
  { unfold get_char_attr_element. cbn [String.eqb Ascii.eqb Bool.eqb]. rewrite Hv. reflexivity. }
  unfold is_variable_continuous, vtype_is, noexcept, bind, self_.
  rewrite (invoke_ask_model _ (model (backend_of w self)) (get_char_attr_element "VType" i) m);
    [| reflexivity | exact Hm | rewrite Hr; reflexivity].
  rewrite Hr. reflexivity.
Qed.

Lemma flags_none (binary continuous integer : pyval) :
  flags_requested binary continuous integer = 0 ->
  truthy binary = false /\ truthy continuous = false /\ truthy integer = false.
Proof.
  unfold flags_requested.
  destruct (truthy binary), (truthy continuous), (truthy integer); cbn; intros; try lia; auto.
Qed.

Lemma add_var_ok (vind : list Z) (vval : list float) (obj lb ub : float) (name : string)
    (m : GRBmodel) :
  all_in_range vind (constrs m) = true ->
  exists m',
    add_var vind vval obj lb ub GRB_CONTINUOUS name m = (ok ONone, m') /\
    vars m' = vars m ++ [mkVar lb ub GRB_CONTINUOUS obj name].
Proof.
  intros H. unfold add_var. rewrite H. cbn [valid_vtype contains GRB_CONTINUOUS negb].
  eexists. split; reflexivity.
Qed.

Lemma model_of_insert (c : call) (h : handle) (m : GRBmodel) (w : world) (self : nat) :
  model (backend_of w self) = h ->
  model_of (log c (set_models <[h := m]> w)) self = Some m.
Proof. intros <-. apply model_of_log_insert. Qed.

(** C4: when more than one of [binary], [continuous], [integer] is
    requested, [add_variable] raises [ValueError] and leaves the world as it
    was: no native call is in the trace and no variable is added, so [ncols]
    is the same. When none is requested, the variable is created with the
    continuous type. *)
Theorem add_variable_type_flags (self : nat)
    (lower_bound upper_bound binary continuous integer obj : pyval)
    (name : option string) (coefficients : option (list (Z * float))) (w : world) :
  (1 < flags_requested binary continuous integer ->
   add_variable self lower_bound upper_bound binary continuous integer obj name
                coefficients w
   = Raise (ValueError exactly_one_msg) w) /\
  (flags_requested binary continuous integer = 0 ->
   forall (m : GRBmodel) (o l u : float),
     model_of w self = Some m ->
     as_double obj = inr o ->
     as_double (or_default lower_bound (- GRB_INFINITY)%float) = inr l ->
     as_double (or_default upper_bound GRB_INFINITY) = inr u ->
     all_in_range (map fst (default [] coefficients)) (constrs m) = true ->
     exists w',
       add_variable self lower_bound upper_bound binary continuous integer obj name
                    coefficients w
       = Ok (Z.of_nat (length (vars m))) w' /\
       exists w'', is_variable_continuous self (Z.of_nat (length (vars m))) w' = Ok true w'').
Proof.
  split.
  - intros H. unfold add_variable. fold (flags_requested binary continuous integer).
    destruct (flags_requested binary continuous integer =? 0) eqn:E0;
      [apply Z.eqb_eq in E0; lia |].
    destruct (flags_requested binary continuous integer =? 1) eqn:E1;
      [apply Z.eqb_eq in E1; lia |].
    reflexivity.
  - intros H m o l u Hm Ho Hl Hu Hin.
    destruct (flags_none _ _ _ H) as (Hb & Hc & Hi).
    unfold add_variable. fold (flags_requested binary continuous integer).
    rewrite H, Hb. cbn [Z.eqb negb andb truthy].
    set (h := model (backend_of w self)).
    assert (Hname : exists s w1,
      (match name with
       | Some s => ret s
       | None =>
           n <- ncols self;;
           (if n <? 0
            then raise (ValueError "negative count")
            else ret ("x_" +:+ zero_bytes (Z.to_nat n)))
       end) w = Ok s w1 /\ models w1 !! h = Some m /\ backend_of w1 self = backend_of w self).
    { destruct name as [s|].
      - exists s, w. auto.
      - unfold bind. rewrite (ncols_ok self m w Hm).
        replace (Z.of_nat (length (vars m)) <? 0) with false by (symmetry; apply Z.ltb_ge; lia).
        eexists _, _. split; [reflexivity |]. split; [exact Hm | reflexivity]. }
    destruct Hname as (s & w1 & Hn & Hm1 & Hb1).
    destruct (add_var_ok (map fst (default [] coefficients)) (map snd (default [] coefficients))
                o l u (c_str s) m Hin) as (m' & Hadd & Hvars).
    unfold bind at 1. unfold self_ at 1. unfold bind at 1. rewrite Hn.
    unfold bind. rewrite Ho, Hl, Hu. cbn [convert ret]. fold h.
    erewrite invoke_on_model; [| reflexivity | exact Hm1 | exact Hadd].
    rewrite check_zero.
    rewrite (invoke_updatemodel h m'); [| apply lookup_insert_eq].
    rewrite check_zero.
    match goal with |- context [ncols self ?w2] =>
      assert (Hm2 : model_of w2 self = Some m')
        by (rewrite model_of_log; apply model_of_insert; rewrite Hb1; reflexivity);
      rewrite (ncols_ok self m' w2 Hm2)
    end.
    rewrite Hvars, length_app. cbn [length].
    replace (Z.of_nat (length (vars m) + 1) - 1) with (Z.of_nat (length (vars m))) by lia.
    replace (Z.of_nat (length (vars m)) =? -1) with false by (symmetry; apply Z.eqb_neq; lia).
    eexists. split; [reflexivity |].
    erewrite is_variable_continuous_ok;
      [| rewrite model_of_log; exact Hm2 | apply var_at_last; exact Hvars].
    eexists. reflexivity.
Qed.

Lemma add_variable_type_flags_witness :
  let w := final (GurobiBackend true (empty_world (sample_library GRB_OPTIMAL 0%float))) in
  add_variable 1%nat (PyFloat 0) PyNone F (PyBool true) (PyBool true) (PyFloat 0) None None w
  = Raise (ValueError exactly_one_msg) w
  /\ exists w',
      add_variable 1%nat (PyFloat 0) PyNone F F F (PyFloat 0) None None w = Ok 0 w'
      /\ exists w'', is_variable_continuous 1%nat 0 w' = Ok true w''.
Proof.
  intros w. split.
  - apply (add_variable_type_flags 1%nat (PyFloat 0) PyNone F (PyBool true) (PyBool true)
             (PyFloat 0) None None w). reflexivity.
  - apply (proj2 (add_variable_type_flags 1%nat (PyFloat 0) PyNone F F F
                    (PyFloat 0) None None w) eq_refl (the_model w 1%nat)
                 0%float 0%float GRB_INFINITY);
      vm_compute; reflexivity.
Defined.

(** ** Comparison of Python numbers *)

Lemma float_ltb_not_eqb (x y : float) :
  PrimFloat.ltb x y = true -> PrimFloat.eqb x y = false.
Proof.
  rewrite FloatAxioms.ltb_spec, FloatAxioms.eqb_spec. unfold SFltb, SFeqb.
  destruct (SFcompare (Prim2SF x) (Prim2SF y)) as [[]|]; congruence.
Qed.

Lemma int_lt_float_not_eq (z : Z) (x : float) :
  int_lt_float z x = true -> int_eq_float z x = false.
Proof.
  unfold int_lt_float, int_eq_float. destruct (float_exact x) as [[n k]|]; [| reflexivity].
  intros H. apply Z.ltb_lt in H. apply Z.eqb_neq. lia.
Qed.

Lemma float_lt_int_not_eq (x : float) (z : Z) :
  float_lt_int x z = true -> int_eq_float z x = false.
Proof.
  unfold float_lt_int, int_eq_float. destruct (float_exact x) as [[n k]|]; [| reflexivity].
  intros H. apply Z.ltb_lt in H. apply Z.eqb_neq. lia.
Qed.

Lemma py_lt_not_eq (a b : pyval) : py_lt a b = true -> py_eq a b = false.
Proof.
  destruct a as [|x|x|x|x], b as [|y|y|y|y]; cbn; try discriminate;
    intros H;
    first [ apply float_ltb_not_eqb; exact H
          | apply int_lt_float_not_eq; exact H
          | apply float_lt_int_not_eq; exact H
          | apply Z.ltb_lt in H; apply Z.eqb_neq; lia ].
Qed.

Lemma as_double_not_None (v : pyval) (x : float) : as_double v = inr x -> is_None v = false.
Proof. destruct v; cbn; congruence. Qed.

(** C5: [add_linear_constraint] makes exactly one native call, chosen by
    the bounds: only an upper bound gives [GRBaddconstr] with sense [<] and
    that bound; only a lower bound gives sense [>]; two equal bounds give
    sense [=]; a lower bound below the upper bound gives
    [GRBaddrangeconstr] with both; and with no bound at all [ValueError] is
    raised and the world, hence the trace of native calls, is unchanged. *)
Theorem add_linear_constraint_dispatch (self : nat) (coefficients : list (Z * float))
    (lower_bound upper_bound : pyval) (name : option string) (w : world) :
  let row_i := map fst coefficients in
  let row_values := map snd coefficients in
  let nm := default EmptyString name in
  (lower_bound = PyNone -> upper_bound = PyNone ->
   add_linear_constraint self coefficients lower_bound upper_bound name w
   = Raise (ValueError no_bound_msg) w) /\
  (forall u, lower_bound = PyNone -> as_double upper_bound = inr u ->
   add_linear_constraint self coefficients lower_bound upper_bound name w
   = one_call self (fun b => GRBaddconstr (model b) row_i row_values GRB_LESS_EQUAL u nm) w) /\
  (forall l, upper_bound = PyNone -> as_double lower_bound = inr l ->
   add_linear_constraint self coefficients lower_bound upper_bound name w
   = one_call self (fun b => GRBaddconstr (model b) row_i row_values GRB_GREATER_EQUAL l nm) w) /\
  (forall l u, as_double lower_bound = inr l -> as_double upper_bound = inr u ->
   py_eq lower_bound upper_bound = true ->
   add_linear_constraint self coefficients lower_bound upper_bound name w
   = one_call self (fun b => GRBaddconstr (model b) row_i row_values GRB_EQUAL l nm) w) /\
  (forall l u, as_double lower_bound = inr l -> as_double upper_bound = inr u ->
   py_lt lower_bound upper_bound = true ->
   add_linear_constraint self coefficients lower_bound upper_bound name w
   = one_call self (fun b => GRBaddrangeconstr (model b) row_i row_values l u nm) w).
Proof.
  intros row_i row_values nm. unfold add_linear_constraint, one_call.
  repeat split.
  - intros -> ->. reflexivity.
  - intros u -> Hu. rewrite (as_double_not_None _ _ Hu).
    cbn [is_None andb negb]. unfold bind, self_. rewrite Hu. reflexivity.
  - intros l -> Hl. rewrite (as_double_not_None _ _ Hl).
    cbn [is_None andb negb]. unfold bind, self_. rewrite Hl. reflexivity.
  - intros l u Hl Hu He. rewrite (as_double_not_None _ _ Hu), (as_double_not_None _ _ Hl).
    cbn [andb negb]. rewrite He. unfold bind, self_. rewrite Hl. reflexivity.
  - intros l u Hl Hu Hlt. rewrite (as_double_not_None _ _ Hu), (as_double_not_None _ _ Hl).
    cbn [andb negb]. rewrite (py_lt_not_eq _ _ Hlt). unfold bind, self_. rewrite Hl, Hu.
    reflexivity.
Qed.

(** ** The parameter table *)

Lemma items_forallb {K V} (P : K * V -> bool) (l : list (K * V)) (k : K) (v : V) :
  forallb P l = true -> (k, v) ∈ l -> P (k, v) = true.
Proof.
  intros H Hin. rewrite forallb_forall in H. apply H. apply list_elem_of_In. exact Hin.
Qed.

Lemma parameters_type_kind (name t : string) :
  parameters_type !! name = Some t -> kind_ok t = true.
Proof.
  intros H. apply elem_of_list_to_map_2 in H.
  apply (items_forallb (fun kv => kind_ok (snd kv)) parameters_type_items name t);
    [vm_compute; reflexivity | exact H].
Qed.

Lemma parameters_type_timelimit (name t : string) :
  parameters_type !! name = Some t -> lower name = "timelimit"%string ->
  name = "TimeLimit"%string.
Proof.
  intros H Hl. apply elem_of_list_to_map_2 in H.
  pose proof (items_forallb
    (fun kv => negb (String.eqb (lower (fst kv)) "timelimit") || String.eqb (fst kv) "TimeLimit")
    parameters_type_items name t) as Hk.
  cbn [fst] in Hk. rewrite Hl in Hk. apply String.eqb_eq. apply Hk; [vm_compute; reflexivity | exact H].
Qed.

Lemma canonical_name_other (name : string) :
  name <> "timelimit"%string -> lower name <> "logfile"%string ->
  canonical_name name = name.
Proof.
  intros H1 H2. unfold canonical_name.
  apply String.eqb_neq in H1. apply String.eqb_neq in H2. rewrite H1, H2. reflexivity.
Qed.

Lemma canonical_name_logfile (name : string) :
  lower name = "logfile"%string -> canonical_name name = "LogFile"%string.
Proof.
  intros H. unfold canonical_name.
  destruct (String.eqb name "timelimit") eqn:E.
  - apply String.eqb_eq in E. subst name. discriminate H.
  - rewrite H. reflexivity.
Qed.

(** C8: [solver_parameter] looks the name up, after the two aliases, in
    [parameters_type]. A name that is not there raises [ValueError] and
    leaves the world, hence the trace of native calls, unchanged. A name
    that is there has kind int, double or string, and the method is the one
    native get or set call of that kind. The alias [timelimit] is replaced
    only in this exact spelling: any other spelling that differs from the
    canonical [TimeLimit] only by case is rejected. Every spelling of
    [logfile], whatever its case, is replaced by [LogFile]. *)
Theorem solver_parameter_dispatch (self : nat) (name : string) (value : pyval) (w : world) :
  let cname := canonical_name name in
  (parameters_type !! cname = None ->
   solver_parameter self name value w = Raise (ValueError not_available_msg) w) /\
  (forall t, parameters_type !! cname = Some t ->
   t = "int"%string \/ t = "double"%string \/ t = "string"%string) /\
  (parameters_type !! cname = Some "int"%string ->
   (value = PyNone ->
    solver_parameter self name value w
    = param_call self (fun b => GRBgetintparam (env b) cname) (fun o => PyInt (int_of o)) w) /\
   (forall v, as_int value = inr v ->
    solver_parameter self name value w
    = param_call self (fun b => GRBsetintparam (env b) cname v) (fun _ => PyNone) w)) /\
  (parameters_type !! cname = Some "double"%string ->
   (value = PyNone ->
    solver_parameter self name value w
    = param_call self (fun b => GRBgetdblparam (env b) cname) (fun o => PyFloat (dbl_of o)) w) /\
   (forall v, as_double value = inr v ->
    solver_parameter self name value w
    = param_call self (fun b => GRBsetdblparam (env b) cname v) (fun _ => PyNone) w)) /\
  (parameters_type !! cname = Some "string"%string ->
   (value = PyNone ->
    solver_parameter self name value w
    = param_call self (fun b => GRBgetstrparam (env b) cname)
        (fun o => PyStr (default EmptyString (str_of o))) w) /\
   (forall v, as_str value = inr v ->
    solver_parameter self name value w
    = param_call self (fun b => GRBsetstrparam (env b) cname v) (fun _ => PyNone) w)) /\
  canonical_name "timelimit" = "TimeLimit"%string /\
  (lower name = "timelimit"%string -> name <> "timelimit"%string ->
   name <> "TimeLimit"%string ->
   solver_parameter self name value w = Raise (ValueError not_available_msg) w) /\
  (lower name = "logfile"%string -> cname = "LogFile"%string).
Proof.
  intros cname.
  assert (Hnone : parameters_type !! cname = None ->
                  solver_parameter self name value w = Raise (ValueError not_available_msg) w).
  { intros H. unfold solver_parameter, bind, self_. fold cname. rewrite H. reflexivity. }
  split; [exact Hnone |].
  split.
  { intros t Ht. apply parameters_type_kind in Ht. unfold kind_ok in Ht.
    destruct (String.eqb_spec t "int"); [auto |].
    destruct (String.eqb_spec t "double"); [auto |].
    destruct (String.eqb_spec t "string"); [auto | discriminate Ht]. }
  split; [| split; [| split]].
  - intros Ht. unfold solver_parameter, param_call, bind, self_. fold cname. rewrite Ht.
    cbn [String.eqb Ascii.eqb Bool.eqb]. split.
    + intros ->. reflexivity.
    + intros v Hv. destruct value; try discriminate Hv; cbn [is_None]; rewrite Hv; reflexivity.
  - intros Ht. unfold solver_parameter, param_call, bind, self_. fold cname. rewrite Ht.
    cbn [String.eqb Ascii.eqb Bool.eqb]. split.
    + intros ->. reflexivity.
    + intros v Hv. destruct value; try discriminate Hv; cbn [is_None]; rewrite Hv; reflexivity.
  - intros Ht. unfold solver_parameter, param_call, bind, self_. fold cname. rewrite Ht.
    cbn [String.eqb Ascii.eqb Bool.eqb]. split.
    + intros ->. reflexivity.
    + intros v Hv. destruct value; try discriminate Hv; cbn [is_None]; rewrite Hv; reflexivity.
  - split; [reflexivity |]. split.
    + intros Hl Hn1 Hn2. apply Hnone.
      assert (Hc : cname = name).
      { apply canonical_name_other; [exact Hn1 | rewrite Hl; discriminate]. }
      rewrite Hc. destruct (parameters_type !! name) as [t|] eqn:E; [| reflexivity].
      exfalso. apply Hn2. exact (parameters_type_timelimit name t E Hl).
    + apply canonical_name_logfile.
Qed.

(** ** Rules for triples *)

Section Triples.
Context {A B : Type}.

Lemma keeps_ret (P : world -> Prop) (a : A) : keeps P (ret a).
Proof. intros w H. exact H. Qed.

Lemma keeps_raise (P : world -> Prop) (e : exn) : keeps P (@raise A e).
Proof. intros w H. exact H. Qed.

Lemma keeps_bind (P : world -> Prop) (m : M A) (k : A -> M B) :
  keeps P m -> (forall a, keeps P (k a)) -> keeps P (bind m k).
Proof.
  intros Hm Hk w H. unfold bind. specialize (Hm w H).
  destruct (m w) as [a w'|e w']; cbn in Hm |- *; [apply Hk; exact Hm | exact Hm].
Qed.

Lemma keeps_convert (P : world -> Prop) (x : exn + A) : keeps P (convert x).
Proof. destruct x; intros w H; exact H. Qed.

Lemma keeps_noexcept (P : world -> Prop) (z : A) (m : M A) :
  keeps P m -> keeps P (noexcept z m).
Proof.
  intros Hm w H. unfold noexcept. specialize (Hm w H). destruct (m w); exact Hm.
Qed.

Lemma hoare_bind (P : world -> Prop) (R : A -> world -> Prop) (Q : B -> world -> Prop)
    (m : M A) (k : A -> M B) :
  hoare P m R -> (forall a, hoare (R a) (k a) Q) -> hoare P (bind m k) Q.
Proof.
  intros Hm Hk w H. unfold bind. specialize (Hm w H).
  destruct (m w) as [a w'|e w']; [apply Hk; exact Hm | exact I].
Qed.

Lemma hoare_weaken (P P' : world -> Prop) (Q Q' : A -> world -> Prop) (m : M A) :
  hoare P' m Q' -> (forall w, P w -> P' w) -> (forall a w, Q' a w -> Q a w) ->
  hoare P m Q.
Proof.
  intros Hm HP HQ w H. specialize (Hm w (HP w H)). destruct (m w); auto.
Qed.

Lemma keeps_hoare (P : world -> Prop) (m : M A) : keeps P m -> hoare P m (fun _ => P).
Proof. intros Hm w H. specialize (Hm w H). destruct (m w); [exact Hm | exact I]. Qed.
End Triples.

(** ** What native calls leave alone *)

Lemma objs_native_call (c : call) (w : world) : objs (snd (native_call c w)) = objs w.
Proof.
  unfold native_call. destruct (native c w) as [r w1] eqn:E. cbn [snd].
  assert (H1 : objs w1 = objs w).
  { destruct c; cbn in E;
      unfold on_model, ask_model, on_env, ask_env, alloc_model in E;
      repeat case_match; inversion E; subst; reflexivity. }
  unfold record_error. destruct (fst r =? 0); cbn; exact H1.
Qed.

Lemma models_native_query (c : call) (w : world) :
  query c = true -> models (snd (native_call c w)) = models w.
Proof.
  intros Hq. unfold native_call. destruct (native c w) as [r w1] eqn:E. cbn [snd].
  assert (H1 : models w1 = models w).
  { destruct c; try discriminate Hq; cbn in E;
      unfold ask_model, ask_env in E;
      repeat case_match; inversion E; subst; reflexivity. }
  unfold record_error. destruct (fst r =? 0); cbn; exact H1.
Qed.

Lemma keeps_invoke (P : world -> Prop) (c : call) :
  (forall w, P w -> P (snd (native_call c w))) -> keeps P (invoke c).
Proof.
  intros Hc w H. unfold invoke. specialize (Hc w H).
  destruct (native_call c w) as [r w']. exact Hc.
Qed.

Lemma keeps_check (P : world -> Prop) (e : handle) (code : Z) :
  (forall w, P w -> P (snd (native_call (GRBgeterrormsg e) w))) -> keeps P (check e code).
Proof.
  intros Hc. unfold check. destruct (negb (code =? 0)); [| apply keeps_ret].
  apply keeps_bind; [apply keeps_invoke; exact Hc |].
  intros a. destruct (errors !! code); apply keeps_raise.
Qed.

Lemma keeps_self_ (P : world -> Prop) (self : nat) : keeps P (self_ self).
Proof. intros w H. exact H. Qed.

(** A predicate on the Python objects is kept by every native call. *)
Lemma keeps_objs_invoke (Q : gmap nat Backend -> Prop) (c : call) :
  keeps (fun w => Q (objs w)) (invoke c).
Proof. apply keeps_invoke. intros w H. rewrite objs_native_call. exact H. Qed.

Lemma keeps_objs_check (Q : gmap nat Backend -> Prop) (e : handle) (code : Z) :
  keeps (fun w => Q (objs w)) (check e code).
Proof. apply keeps_check. intros w H. rewrite objs_native_call. exact H. Qed.

(** The models are kept by every query. *)
Lemma keeps_models_query (ms : gmap nat GRBmodel) (c : call) :
  query c = true -> keeps (fun w => models w = ms) (invoke c).
Proof.
  intros Hq. apply keeps_invoke. intros w H. rewrite models_native_query; assumption.
Qed.

Lemma keeps_models_check (ms : gmap nat GRBmodel) (e : handle) (code : Z) :
  keeps (fun w => models w = ms) (check e code).
Proof.
  apply keeps_check. intros w H. rewrite models_native_query; [assumption | reflexivity].
Qed.

(** ** Zero is falsy *)

Lemma float_exact_zero (x : float) (k : Z) :
  float_exact x = Some (0, k) -> float_is_zero x = true.
Proof.
  unfold float_exact, float_is_zero. rewrite FloatAxioms.eqb_spec.
  destruct (Prim2SF x) as [s| | |s m e] eqn:E; try discriminate.
  - intros _. destruct s; reflexivity.
  - destruct (0 <=? e) eqn:Ee; intros H; inversion H as [[Hn Hk]]; exfalso.
    + apply Z.leb_le in Ee. assert (0 < 2 ^ e) by (apply Z.pow_pos_nonneg; lia).
      destruct s; nia.
    + destruct s; discriminate.
Qed.

Lemma is_zero_falsy (coeff : pyval) : is_zero coeff -> truthy coeff = false.
Proof.
  unfold is_zero. destruct coeff as [|b|z|x|s]; cbn; try discriminate.
  - destruct b; [discriminate | reflexivity].
  - intros H. rewrite H. reflexivity.
  - unfold int_eq_float. destruct (float_exact x) as [[n k]|] eqn:E; [| discriminate].
    intros H. apply Z.eqb_eq in H. cbn in H. subst n.
    pose proof (float_exact_zero x k E) as Hf. unfold float_is_zero in Hf.
    rewrite Hf. reflexivity.
Qed.

Lemma get_obj_element (i : Z) (m : GRBmodel) (v : GRBvar) :
  var_at i m = Some v -> get_dbl_attr_element "Obj" i m = ok (ODbl (Obj v)).
Proof. intros H. unfold get_dbl_attr_element. cbn. rewrite H. reflexivity. Qed.

Lemma objective_coefficient_read (self : nat) (variable : Z) (m : GRBmodel) (v : GRBvar)
    (w : world) :
  model_of w self = Some m ->
  var_at variable m = Some v ->
  objective_coefficient self variable PyNone w =
  Ok (PyFloat (Obj v))
     (log (GRBgetdblattrelement (model (backend_of w self)) "Obj" variable) w).
Proof.
  intros Hm Hv. unfold objective_coefficient, bind, self_. cbn [truthy].
  rewrite (invoke_ask_model _ (model (backend_of w self))
             (get_dbl_attr_element "Obj" variable) m);
    [| reflexivity | exact Hm | rewrite (get_obj_element _ _ _ Hv); reflexivity].
  rewrite (get_obj_element _ _ _ Hv). reflexivity.
Qed.

Lemma objective_coefficient_read_keeps_models (self : nat) (variable : Z) (w : world) :
  models (final (objective_coefficient self variable PyNone w)) = models w.
Proof.
  assert (K : keeps (fun w' => models w' = models w)
                    (objective_coefficient self variable PyNone)).
  { unfold objective_coefficient. cbn [truthy].
    apply keeps_bind; [apply keeps_self_ | intros b].
    apply keeps_bind; [apply keeps_models_query; reflexivity | intros r].
    apply keeps_bind; [apply keeps_models_check | intros _].
    apply keeps_ret. }
  exact (K w eq_refl).
Qed.

(** C9: [objective_coefficient] called with a coefficient equal to zero is
    the same computation as the call that reads: it returns the stored
    coefficient, and it leaves every native model as it was. *)
Theorem objective_coefficient_zero_reads (self : nat) (variable : Z) (coeff : pyval)
    (w : world) :
  is_zero coeff ->
  objective_coefficient self variable coeff w = objective_coefficient self variable PyNone w
  /\ models (final (objective_coefficient self variable coeff w)) = models w
  /\ forall m v, model_of w self = Some m -> var_at variable m = Some v ->
       exists w', objective_coefficient self variable coeff w = Ok (PyFloat (Obj v)) w'.
Proof.
  intros Hz.
  assert (E : objective_coefficient self variable coeff w
              = objective_coefficient self variable PyNone w).
  { unfold objective_coefficient, bind, self_. rewrite (is_zero_falsy coeff Hz). reflexivity. }
  split; [exact E |]. rewrite E. split.
  - apply objective_coefficient_read_keeps_models.
  - intros m v Hm Hv. eexists. exact (objective_coefficient_read self variable m v w Hm Hv).
Qed.

Lemma objective_coefficient_zero_reads_witness :
  objective_coefficient 1%nat 0 (PyFloat 0) objective_example
  = objective_coefficient 1%nat 0 PyNone objective_example
  /\ objective_coefficient 1%nat 0 PyNone objective_example
     = Ok (PyFloat 2)
          (log (GRBgetdblattrelement 4%nat "Obj" 0) objective_example).
Proof.
  split.
  - apply (objective_coefficient_zero_reads 1%nat 0 (PyFloat 0) objective_example).
    vm_compute. reflexivity.
  - vm_compute. reflexivity.
Defined.

(** ** Variables of a model *)

Lemma var_at_Some (i : Z) (m : GRBmodel) (v : GRBvar) :
  var_at i m = Some v -> in_range i (vars m) = true /\ vars m !! Z.to_nat i = Some v.
Proof. unfold var_at. destruct (in_range i (vars m)); [auto | discriminate]. Qed.

Lemma var_at_updated (f : GRBvar -> GRBvar) (i : Z) (m : GRBmodel) (v : GRBvar) :
  var_at i m = Some v -> var_at i (updated f i m) = Some (f v).
Proof.
  intros H. apply var_at_Some in H as [Hr Hl].
  unfold var_at, updated, in_range in *. cbn [vars with_vars touch].
  rewrite length_alter, Hr, list_lookup_alter_eq, Hl. reflexivity.
Qed.

Lemma update_var_ok (f : GRBvar -> GRBvar) (i : Z) (m : GRBmodel) (v : GRBvar) :
  var_at i m = Some v -> update_var f i m = (ok ONone, updated f i m).
Proof.
  intros H. apply var_at_Some in H as [Hr _]. unfold update_var. rewrite Hr. reflexivity.
Qed.

Lemma get_dbl_element (i : Z) (m : GRBmodel) (v : GRBvar) :
  var_at i m = Some v ->
  get_dbl_attr_element "LB" i m = ok (ODbl (LB v))
  /\ get_dbl_attr_element "UB" i m = ok (ODbl (UB v)).
Proof. intros H. unfold get_dbl_attr_element. cbn. rewrite H. split; reflexivity. Qed.

(** ** The bound accessors *)

Lemma write_bound_ok (self : nat) (attr : string) (f : float -> GRBvar -> GRBvar) (i : Z)
    (value : pyval) (unbounded x : float) (m : GRBmodel) (v : GRBvar) (w : world) :
  (forall y, set_dbl_attr_element attr i y m = update_var (f y) i m) ->
  model_of w self = Some m ->
  var_at i m = Some v ->
  as_double (or_default value unbounded) = inr x ->
  exists w1,
    write_bound self attr i value unbounded w = Ok None w1
    /\ model_of w1 self = Some (updated (f x) i m).
Proof.
  intros Hf Hm Hv Hx. unfold write_bound, bind, self_. rewrite Hx. cbn [convert ret].
  erewrite invoke_on_model;
    [| reflexivity | exact Hm | rewrite Hf; apply (update_var_ok _ _ _ _ Hv)].
  rewrite check_zero.
  rewrite (invoke_updatemodel _ (updated (f x) i m)); [| apply lookup_insert_eq].
  rewrite check_zero. eexists. split; [reflexivity |].
  rewrite model_of_log. apply model_of_log_insert.
Qed.

Lemma read_bound_ok (self : nat) (attr : string) (i : Z) (conv : float -> option float)
    (x : float) (m : GRBmodel) (w : world) :
  model_of w self = Some m ->
  get_dbl_attr_element attr i m = ok (ODbl x) ->
  read_bound self attr i conv w =
  Ok (conv x) (log (GRBgetdblattrelement (model (backend_of w self)) attr i) w).
Proof.
  intros Hm Hg. unfold read_bound, bind, self_.
  rewrite (invoke_ask_model _ (model (backend_of w self)) (get_dbl_attr_element attr i) m);
    [| reflexivity | exact Hm | rewrite Hg; reflexivity].
  rewrite Hg. reflexivity.
Qed.

Lemma variable_upper_bound_branch (self : nat) (i : Z) (value : pyval) (w : world) :
  variable_upper_bound self i value w =
  if is_False value then read_bound self "UB" i upper_or_None w
  else write_bound self "UB" i value GRB_INFINITY w.
Proof. unfold variable_upper_bound, bind, self_. destruct (is_False value); reflexivity. Qed.

Lemma variable_lower_bound_branch (self : nat) (i : Z) (value : pyval) (w : world) :
  variable_lower_bound self i value w =
  if is_False value then read_bound self "LB" i lower_or_None w
  else write_bound self "LB" i value (- GRB_INFINITY)%float w.
Proof. unfold variable_lower_bound, bind, self_. destruct (is_False value); reflexivity. Qed.

Lemma is_False_F (value : pyval) : value <> F -> is_False value = false.
Proof. destruct value as [|[]| | |]; try reflexivity. intros H. contradiction H. reflexivity. Qed.

(** Writing an upper bound and reading it back. *)
Lemma upper_bound_round_trip (self : nat) (i : Z) (value : pyval) (x : float)
    (m : GRBmodel) (v : GRBvar) (w : world) :
  model_of w self = Some m ->
  var_at i m = Some v ->
  is_False value = false ->
  as_double (or_default value GRB_INFINITY) = inr x ->
  exists w1 w2,
    variable_upper_bound self i value w = Ok None w1
    /\ model_of w1 self = Some (updated (set_UB x) i m)
    /\ variable_upper_bound self i F w1 = Ok (upper_or_None x) w2.
Proof.
  intros Hm Hv Hf Hx.
  destruct (write_bound_ok self "UB" set_UB i value GRB_INFINITY x m v w)
    as (w1 & Hw & Hm1); auto.
  exists w1. eexists. rewrite !variable_upper_bound_branch, Hf. cbn [is_False F].
  split; [exact Hw |]. split; [exact Hm1 |].
  apply (read_bound_ok self "UB" i upper_or_None x _ w1 Hm1).
  apply (get_dbl_element i _ _ (var_at_updated (set_UB x) i m v Hv)).
Qed.

Lemma lower_bound_round_trip (self : nat) (i : Z) (value : pyval) (x : float)
    (m : GRBmodel) (v : GRBvar) (w : world) :
  model_of w self = Some m ->
  var_at i m = Some v ->
  is_False value = false ->
  as_double (or_default value (- GRB_INFINITY)%float) = inr x ->
  exists w1 w2,
    variable_lower_bound self i value w = Ok None w1
    /\ model_of w1 self = Some (updated (set_LB x) i m)
    /\ variable_lower_bound self i F w1 = Ok (lower_or_None x) w2.
Proof.
  intros Hm Hv Hf Hx.
  destruct (write_bound_ok self "LB" set_LB i value (- GRB_INFINITY)%float x m v w)
    as (w1 & Hw & Hm1); auto.
  exists w1. eexists. rewrite !variable_lower_bound_branch, Hf. cbn [is_False F].
  split; [exact Hw |]. split; [exact Hm1 |].
  apply (read_bound_ok self "LB" i lower_or_None x _ w1 Hm1).
  apply (get_dbl_element i _ _ (var_at_updated (set_LB x) i m v Hv)).
Qed.

(** C10: the bound accessors read only when [value] is the object [False];
    every other value, zero included, is written. Writing [0.0] stores it,
    and the next read returns [0.0]; writing [None] stores the infinity
    sentinel, and the next read returns [None]. *)
Theorem variable_bound_zero_is_written (self : nat) (i : Z) (m : GRBmodel) (v : GRBvar)
    (w : world) :
  model_of w self = Some m ->
  var_at i m = Some v ->
  (exists w1 w2,
     variable_upper_bound self i (PyFloat 0) w = Ok None w1
     /\ variable_upper_bound self i F w1 = Ok (Some 0%float) w2) /\
  (exists w1 w2,
     variable_lower_bound self i (PyFloat 0) w = Ok None w1
     /\ variable_lower_bound self i F w1 = Ok (Some 0%float) w2) /\
  (exists w1 w2,
     variable_upper_bound self i PyNone w = Ok None w1
     /\ model_of w1 self = Some (updated (set_UB GRB_INFINITY) i m)
     /\ variable_upper_bound self i F w1 = Ok None w2) /\
  (exists w1 w2,
     variable_lower_bound self i PyNone w = Ok None w1
     /\ model_of w1 self = Some (updated (set_LB (- GRB_INFINITY)%float) i m)
     /\ variable_lower_bound self i F w1 = Ok None w2) /\
  (forall value, value <> F ->
     variable_upper_bound self i value w = write_bound self "UB" i value GRB_INFINITY w
     /\ variable_lower_bound self i value w
        = write_bound self "LB" i value (- GRB_INFINITY)%float w) /\
  variable_upper_bound self i F w = read_bound self "UB" i upper_or_None w /\
  variable_lower_bound self i F w = read_bound self "LB" i lower_or_None w.
Proof.
  intros Hm Hv.
  split; [| split; [| split; [| split; [| split; [| split]]]]].
  - destruct (upper_bound_round_trip self i (PyFloat 0) 0%float m v w Hm Hv eq_refl eq_refl)
      as (w1 & w2 & H1 & _ & H2). exists w1, w2. split; [exact H1 | exact H2].
  - destruct (lower_bound_round_trip self i (PyFloat 0) 0%float m v w Hm Hv eq_refl eq_refl)
      as (w1 & w2 & H1 & _ & H2). exists w1, w2. split; [exact H1 | exact H2].
  - destruct (upper_bound_round_trip self i PyNone GRB_INFINITY m v w Hm Hv eq_refl eq_refl)
      as (w1 & w2 & H1 & Hm1 & H2). exists w1, w2. auto.
  - destruct (lower_bound_round_trip self i PyNone (- GRB_INFINITY)%float m v w Hm Hv
                eq_refl eq_refl)
      as (w1 & w2 & H1 & Hm1 & H2). exists w1, w2. auto.
  - intros value Hne. rewrite variable_upper_bound_branch, variable_lower_bound_branch,
      (is_False_F _ Hne). split; reflexivity.
  - apply variable_upper_bound_branch.
  - apply variable_lower_bound_branch.
Qed.

(** ** The objective *)

Lemma in_range_lookup {A} (i : Z) (l : list A) :
  0 <= i -> i < Z.of_nat (length l) -> in_range i l = true /\ is_Some (l !! Z.to_nat i).
Proof.
  intros H0 H1. split.
  - unfold in_range. apply andb_true_intro. split; [apply Z.leb_le | apply Z.ltb_lt]; lia.
  - apply lookup_lt_is_Some. lia.
Qed.

Lemma set_objective_loop_ok (b : Backend) (coeff : list pyval) (xs : list float) :
  Forall2 (fun c x => as_double c = inr x) coeff xs ->
  forall (i : Z) (m : GRBmodel) (w : world),
    models w !! model b = Some m ->
    0 <= i ->
    i + Z.of_nat (length coeff) <= Z.of_nat (length (vars m)) ->
    exists w' m',
      set_objective_loop b i coeff w = Ok tt w'
      /\ models w' !! model b = Some m'
      /\ objs w' = objs w
      /\ length (vars m') = length (vars m)
      /\ (forall k x, xs !! k = Some x ->
            Obj <$> (vars m' !! (Z.to_nat i + k)%nat) = Some x)
      /\ (forall j, (j < Z.to_nat i)%nat -> vars m' !! j = vars m !! j).
Proof.
  induction 1 as [|c x cs xs' Hc Hcs IH]; intros i m w Hm Hi Hlen.
  - exists w, m. cbn. repeat split; auto. intros k x Hk. discriminate Hk.
  - cbn [length] in Hlen.
    destruct (in_range_lookup i (vars m) Hi ltac:(lia)) as [Hr [v Hv]].
    assert (Hat : var_at i m = Some v) by (unfold var_at; rewrite Hr; exact Hv).
    cbn [set_objective_loop]. unfold bind at 1. rewrite Hc. cbn [convert ret].
    unfold bind at 1.
    erewrite invoke_on_model;
      [| reflexivity | exact Hm | apply (update_var_ok (set_Obj x) _ _ _ Hat)].
    unfold bind at 1. rewrite check_zero.
    destruct (IH (i + 1) (updated (set_Obj x) i m)
                (log (GRBsetdblattrelement (model b) "Obj" i x)
                     (set_models <[model b := updated (set_Obj x) i m]> w)))
      as (w' & m' & Hrun & Hm' & Hobjs & Hl & Hset & Hkeep).
    + cbn. apply lookup_insert_eq.
    + lia.
    + unfold updated. cbn [vars with_vars touch]. rewrite length_alter. lia.
    + exists w', m'. split; [exact Hrun |]. split; [exact Hm' |].
      split; [rewrite Hobjs; reflexivity |].
      split; [rewrite Hl; unfold updated; cbn [vars with_vars touch]; apply length_alter |].
      split.
      * intros [|k] y Hk.
        -- cbn in Hk. inversion Hk; subst y. rewrite Nat.add_0_r.
           rewrite Hkeep by lia. unfold updated. cbn [vars with_vars touch].
           rewrite list_lookup_alter_eq, Hv. reflexivity.
        -- cbn in Hk. specialize (Hset k y Hk).
           replace (Z.to_nat i + S k)%nat with (Z.to_nat (i + 1) + k)%nat by lia.
           exact Hset.
      * intros j Hj. rewrite Hkeep by lia. unfold updated. cbn [vars with_vars touch].
        apply list_lookup_alter_ne. lia.
Qed.

Lemma keeps_objs_solve (Q : gmap nat Backend -> Prop) (self : nat) :
  keeps (fun w => Q (objs w)) (solve self).
Proof.
  unfold solve.
  apply keeps_bind; [apply keeps_self_ | intros b].
  apply keeps_bind; [apply keeps_objs_invoke | intros r].
  apply keeps_bind; [apply keeps_objs_check | intros _].
  apply keeps_bind; [apply keeps_objs_invoke | intros s].
  apply keeps_bind; [apply keeps_objs_check | intros _].
  destruct (negb (int_of (out s) =? GRB_OPTIMAL)); [apply keeps_raise | apply keeps_ret].
Qed.

Lemma get_objective_value_ok (self : nat) (m : GRBmodel) (v dd : float) (w : world) :
  model_of w self = Some m ->
  ObjVal m = Some v ->
  as_double (obj_constant_term (backend_of w self)) = inr dd ->
  get_objective_value self w =
  Ok (v + dd)%float (log (GRBgetdblattr (model (backend_of w self)) "ObjVal") w).
Proof.
  intros Hm Hv Hd.
  assert (Hg : get_dbl_attr "ObjVal" m = ok (ODbl v)).
  { unfold get_dbl_attr. cbn [String.eqb Ascii.eqb Bool.eqb]. rewrite Hv. reflexivity. }
  unfold get_objective_value, bind, self_.
  rewrite (invoke_ask_model _ (model (backend_of w self)) (get_dbl_attr "ObjVal") m);
    [| reflexivity | exact Hm | rewrite Hg; reflexivity].
  rewrite Hg, check_zero, Hd. reflexivity.
Qed.

(** C6: after [set_objective(coeff, d)], with one numeric coefficient per
    variable at most, reading [objective_coefficient(k)] returns the [k]-th
    coefficient as a double; and after a [solve()] that then returns,
    [get_objective_value()] is the native [ObjVal] plus [d]. *)
Theorem set_objective_round_trip (self : nat) (coeff : list pyval) (xs : list float)
    (d : pyval) (m : GRBmodel) (w : world) :
  model_of w self = Some m ->
  Forall2 (fun c x => as_double c = inr x) coeff xs ->
  (length coeff <= length (vars m))%nat ->
  exists w1,
    set_objective self coeff d w = Ok tt w1
    /\ (forall k x, xs !! k = Some x ->
        exists w2, objective_coefficient self (Z.of_nat k) PyNone w1 = Ok (PyFloat x) w2)
    /\ (forall w2 m2 v dd,
          solve self w1 = Ok 0 w2 ->
          model_of w2 self = Some m2 ->
          ObjVal m2 = Some v ->
          as_double d = inr dd ->
          exists w3, get_objective_value self w2 = Ok (v + dd)%float w3).
Proof.
  intros Hm Hc Hlen. unfold model_of in Hm.
  set (b := backend_of w self) in *.
  destruct (set_objective_loop_ok b coeff xs Hc 0 m w Hm ltac:(lia) ltac:(lia))
    as (w' & m' & Hrun & Hm' & Hobjs & Hl & Hset & _).
  assert (Hb' : backend_of w' self = b) by (unfold backend_of; rewrite Hobjs; reflexivity).
  unfold set_objective, bind, self_. fold b. rewrite Hrun.
  rewrite (invoke_updatemodel _ m' w' Hm'), check_zero. unfold setattr.
  eexists. split; [reflexivity |].
  match goal with |- context [objective_coefficient _ _ _ ?x] => set (w1 := x) end.
  assert (Hb1 : backend_of w1 self
                = mkBackend (env_master b) (model b) (env b) d).
  { unfold w1. unfold backend_of at 1. cbn [objs set_objs]. rewrite lookup_insert_eq.
    change (backend_of (log (GRBupdatemodel (model b)) w') self) with (backend_of w' self).
    rewrite Hb'. reflexivity. }
  assert (Hm1 : model_of w1 self = Some m').
  { unfold model_of. rewrite Hb1. cbn. exact Hm'. }
  split.
  - intros k x Hk. specialize (Hset k x Hk).
    change (Z.to_nat 0 + k)%nat with k in Hset.
    destruct (vars m' !! k) as [v|] eqn:Hv; cbn in Hset; [| discriminate Hset].
    inversion Hset; subst x.
    eexists. apply (objective_coefficient_read self (Z.of_nat k) m' v w1 Hm1).
    unfold var_at, in_range. rewrite Nat2Z.id, Hv.
    apply lookup_lt_Some in Hv.
    replace (0 <=? Z.of_nat k) with true by (symmetry; apply Z.leb_le; lia).
    replace (Z.of_nat k <? Z.of_nat (length (vars m'))) with true
      by (symmetry; apply Z.ltb_lt; lia).
    reflexivity.
  - intros w2 m2 v dd Hsolve Hm2 Hv Hd.
    pose proof (keeps_objs_solve (fun o => o = objs w1) self w1 eq_refl) as Hk.
    rewrite Hsolve in Hk. cbn [final] in Hk.
    assert (Hb2 : backend_of w2 self = backend_of w1 self)
      by (unfold backend_of; rewrite Hk; reflexivity).
    eexists. apply (get_objective_value_ok self m2 v dd w2 Hm2 Hv).
    rewrite Hb2, Hb1. exact Hd.
Qed.

Lemma Ok_world {A} (a a' : A) (w w' : world) : Ok a w = Ok a' w' -> w = w'.
Proof. intros H. injection H. auto. Qed.

Lemma set_objective_round_trip_witness :
  let w := final (two_variables (empty_world (sample_library GRB_OPTIMAL 7.5%float))) in
  exists w1,
    set_objective 1%nat [PyInt 2; PyInt 5] (PyFloat 7) w = Ok tt w1
    /\ (exists w2, objective_coefficient 1%nat 1 PyNone w1 = Ok (PyFloat 5) w2)
    /\ (exists w2 w3, solve 1%nat w1 = Ok 0 w2
                      /\ get_objective_value 1%nat w2 = Ok 14.5%float w3).
Proof.
  intros w.
  destruct (set_objective_round_trip 1%nat [PyInt 2; PyInt 5] [2%float; 5%float]
              (PyFloat 7) (the_model w 1%nat) w) as (w1 & H1 & H2 & H3).
  - vm_compute. reflexivity.
  - repeat constructor.
  - vm_compute. lia.
  - exists w1. split; [exact H1 |]. split; [exact (H2 1%nat 5%float eq_refl) |].
    assert (E : set_objective 1%nat [PyInt 2; PyInt 5] (PyFloat 7) w
                = Ok tt objective_example) by (vm_compute; reflexivity).
    rewrite E in H1. apply Ok_world in H1. subst w1.
    exists (final (solve 1%nat objective_example)).
    destruct (H3 (final (solve 1%nat objective_example))
                 (the_model (final (solve 1%nat objective_example)) 1%nat)
                 7.5%float 7%float) as (w3 & Hg);
      [vm_compute; reflexivity .. |].
    exists w3. split; [vm_compute; reflexivity | exact Hg].
Defined.

(** ** The copy *)

Lemma hoare_any {A} (P : world -> Prop) (m : M A) : hoare P m (fun _ _ => True).
Proof. intros w _. destruct (m w); exact I. Qed.

Lemma hoare_raise {A} (P : world -> Prop) (e : exn) (Q : A -> world -> Prop) :
  hoare P (raise e) Q.
Proof. intros w _. exact I. Qed.

Lemma hoare_then {A B} (m : M A) (k : A -> M B) (Q : B -> world -> Prop) :
  (forall a, hoare (fun _ => True) (k a) Q) -> hoare (fun _ => True) (bind m k) Q.
Proof. intros Hk. apply (hoare_bind _ (fun _ _ => True)); [apply hoare_any | exact Hk]. Qed.

Lemma hoare_setattr_constant (self : nat) (f : Backend -> Backend) (c : pyval) :
  (forall b, obj_constant_term (f b) = c) ->
  hoare (fun _ => True) (setattr self f) (fun _ w => constant_of self (objs w) = c).
Proof.
  intros Hf w _. unfold setattr, constant_of. cbn. rewrite lookup_insert_eq. apply Hf.
Qed.

Lemma keeps_setattr_constant (p : nat) (f : Backend -> Backend) (c : pyval) :
  (forall b, obj_constant_term (f b) = obj_constant_term b) ->
  keeps (fun w => constant_of p (objs w) = c) (setattr p f).
Proof.
  intros Hf w H. unfold setattr, constant_of in *. cbn. rewrite lookup_insert_eq. cbn.
  rewrite Hf. exact H.
Qed.

Lemma keeps_objs_problem_name (Q : gmap nat Backend -> Prop) (self : nat)
    (name : option string) :
  keeps (fun w => Q (objs w)) (problem_name self name).
Proof.
  unfold problem_name.
  apply keeps_bind; [apply keeps_self_ | intros b].
  destruct name.
  - apply keeps_bind; [apply keeps_objs_invoke | intros r].
    apply keeps_bind; [apply keeps_objs_check | intros _].
    apply keeps_bind; [apply keeps_objs_invoke | intros u].
    apply keeps_bind; [apply keeps_objs_check | intros _].
    apply keeps_ret.
  - apply keeps_bind; [apply keeps_objs_invoke | intros r].
    apply keeps_bind; [apply keeps_objs_check | intros _].
    apply keeps_ret.
Qed.

(** A backend that [__init__] has finished holds the constant [0.0]. *)
Lemma init_constant (self : nat) (maximization : bool) :
  hoare (fun _ => True) (__init__ self maximization)
        (fun _ w => constant_of self (objs w) = PyFloat 0).
Proof.
  unfold __init__.
  repeat first
    [ apply hoare_then; intros ?
    | match goal with |- hoare _ (if ?c then _ else _) _ => destruct c end
    | apply hoare_raise ].
  apply hoare_setattr_constant. reflexivity.
Qed.

Lemma copy_constant (self : nat) :
  hoare (fun _ => True) (__copy__ self)
        (fun p w => constant_of p (objs w) = PyFloat 0).
Proof.
  unfold __copy__, GurobiBackend.
  apply hoare_then; intros mx.
  apply (hoare_bind _ (fun p w => constant_of p (objs w) = PyFloat 0)).
  { apply hoare_then; intros p.
    apply (hoare_bind _ (fun _ w => constant_of p (objs w) = PyFloat 0));
      [apply init_constant |].
    intros _ w H. exact H. }
  intros p.
  repeat (eapply hoare_bind;
          [ apply keeps_hoare;
            first [ apply keeps_self_
                  | apply (keeps_objs_invoke (fun o => constant_of p o = PyFloat 0))
                  | apply keeps_setattr_constant; reflexivity
                  | apply (keeps_objs_problem_name
                             (fun o => constant_of p o = PyFloat 0)) ]
          | intros ?; cbn beta ]).
  intros w H. exact H.
Qed.

(** C7: the backend that [__copy__] returns holds the constant term [0.0],
    whatever the source holds. For the source with objective
    [2 x0 + 5 x1 + 7], the copy has the same number of columns and the same
    coefficients, but after solving both, where the native objective value
    is 7.5, the source reports 14.5 and the copy 7.5. *)
Theorem copy_drops_constant_term :
  (forall self w p w',
     __copy__ self w = Ok p w' -> constant_of p (objs w') = PyFloat 0)
  /\ exists p w',
       __copy__ 1%nat objective_example = Ok p w'
       /\ constant_of 1%nat (objs w') = PyFloat 7
       /\ constant_of p (objs w') = PyFloat 0
       /\ (exists w1 w2, solve 1%nat w' = Ok 0 w1
                         /\ get_objective_value 1%nat w1 = Ok 14.5%float w2)
       /\ (exists w1 w2, solve p w' = Ok 0 w1
                         /\ get_objective_value p w1 = Ok 7.5%float w2).
Proof.
  split.
  - intros self w p w' H. pose proof (copy_constant self w I) as Hc.
    rewrite H in Hc. exact Hc.
  - set (w' := final (__copy__ 1%nat objective_example)).
    exists 5%nat, w'. split; [vm_compute; reflexivity |].
    split; [vm_compute; reflexivity |].
    split; [vm_compute; reflexivity |].
    split.
    + exists (final (solve 1%nat w')),
             (final (get_objective_value 1%nat (final (solve 1%nat w')))).
      split; vm_compute; reflexivity.
    + exists (final (solve 5%nat w')),
             (final (get_objective_value 5%nat (final (solve 5%nat w')))).
      split; vm_compute; reflexivity.
Qed.

(** ** Bounds of rows and columns *)



(** Whatever the native layer holds, [row_bounds] returns one number: a
    pair with two bounds has them equal. *)
Lemma row_bounds_one_number (self : nat) (index : Z) (w w' : world) (l u : float) :
  row_bounds self index w = Ok (Some l, Some u) w' -> l = u.
Proof.
  unfold row_bounds, bind, self_. intros H.
  repeat match type of H with
         | match ?x with _ => _ end = _ => destruct x; try discriminate H
         | (if ?x then _ else _) _ = _ => destruct x
         end;
    unfold ret in H; congruence.
Qed.

(** C2: the range row of [solve]'s docstring, [1.2 <= x0 + x1 <= 1.7], is
    added without error, yet [row_bounds] returns [(1.2, 1.2)] for it and
    not the pair written; and no state of the native layer makes
    [row_bounds] return two different bounds. *)
Theorem row_bounds_of_range_row :
  (exists w1 w2,
     add_linear_constraint 1%nat [(0, 1%float); (1, 1%float)]
                           (PyFloat 1.2) (PyFloat 1.7) None two_variables_world
     = Ok tt w1
     /\ row_bounds 1%nat 0 w1 = Ok (Some 1.2%float, Some 1.2%float) w2)
  /\ forall self index w w' l u,
       row_bounds self index w = Ok (Some l, Some u) w' -> l = u.
Proof.
  split.
  - set (w1 := final (add_linear_constraint 1%nat [(0, 1%float); (1, 1%float)]
                        (PyFloat 1.2) (PyFloat 1.7) None two_variables_world)).
    exists w1, (final (row_bounds 1%nat 0 w1)). split; vm_compute; reflexivity.
  - exact row_bounds_one_number.
Qed.

(** ** The theorems at concrete inputs *)

Lemma variable_bound_zero_is_written_witness :
  exists w1 w2,
    variable_upper_bound 1%nat 0 (PyFloat 0) two_variables_world = Ok None w1
    /\ variable_upper_bound 1%nat 0 F w1 = Ok (Some 0%float) w2.
Proof.
  destruct (variable_bound_zero_is_written 1%nat 0 (the_model two_variables_world 1%nat)
              (mkVar 0%float GRB_INFINITY GRB_CONTINUOUS 0%float "x_") two_variables_world)
    as [H _]; [vm_compute; reflexivity | vm_compute; reflexivity | exact H].
Defined.

Lemma add_linear_constraint_dispatch_witness :
  let w := two_variables_world in
  let row := [(0, 1%float); (1, 2%float)] in
  add_linear_constraint 1%nat row PyNone PyNone None w = Raise (ValueError no_bound_msg) w
  /\ add_linear_constraint 1%nat row PyNone (PyInt 3) None w
     = one_call 1%nat (fun b => GRBaddconstr (model b) [0; 1] [1%float; 2%float]
                                             GRB_LESS_EQUAL 3%float EmptyString) w
  /\ add_linear_constraint 1%nat row (PyFloat 1.2) (PyFloat 1.7) None w
     = one_call 1%nat (fun b => GRBaddrangeconstr (model b) [0; 1] [1%float; 2%float]
                                                  1.2%float 1.7%float EmptyString) w.
Proof.
  intros w row.
  destruct (add_linear_constraint_dispatch 1%nat row PyNone PyNone None w) as (H0 & _).
  destruct (add_linear_constraint_dispatch 1%nat row PyNone (PyInt 3) None w)
    as (_ & H1 & _).
  destruct (add_linear_constraint_dispatch 1%nat row (PyFloat 1.2) (PyFloat 1.7) None w)
    as (_ & _ & _ & _ & H4).
  split; [exact (H0 eq_refl eq_refl) |].
  split; [exact (H1 3%float eq_refl eq_refl) |].
  exact (H4 1.2%float 1.7%float eq_refl eq_refl eq_refl).
Defined.

Lemma solver_parameter_dispatch_witness :
  let w := two_variables_world in
  solver_parameter 1%nat "Timelimit" PyNone w = Raise (ValueError not_available_msg) w
  /\ solver_parameter 1%nat "timelimit" (PyInt 10) w
     = param_call 1%nat (fun b => GRBsetdblparam (env b) "TimeLimit" 10%float)
                  (fun _ => PyNone) w
  /\ solver_parameter 1%nat "LOGFILE" PyNone w
     = param_call 1%nat (fun b => GRBgetstrparam (env b) "LogFile")
                  (fun o => PyStr (default EmptyString (str_of o))) w.
Proof.
  intros w.
  destruct (solver_parameter_dispatch 1%nat "Timelimit" PyNone w)
    as (_ & _ & _ & _ & _ & _ & H1 & _).
  destruct (solver_parameter_dispatch 1%nat "timelimit" (PyInt 10) w)
    as (_ & _ & _ & H2 & _).
  destruct (solver_parameter_dispatch 1%nat "LOGFILE" PyNone w)
    as (_ & _ & _ & _ & H3 & _).
  split; [apply H1; [reflexivity | discriminate | discriminate] |].
  split; [exact (proj2 (H2 eq_refl) 10%float eq_refl) |].
  exact (proj1 (H3 eq_refl) eq_refl).
Defined.

(** * Further properties of the backend *)

(** ** [check] *)

(** X1: [check] does nothing for the code 0, and for each code of the table
    [errors] it raises [MIPSolverException] whose message is [Gurobi: ],
    the [str] of the native text (a bytes object) and the symbolic name of
    the code in parentheses; the only native call it makes is the one that
    fetches the text. *)
Theorem check_translates_listed_codes (e : handle) (error : Z) (w : world) :
  (error = 0 -> check e error w = Ok tt w) /\
  (forall name, errors !! error = Some name ->
   check e error w =
   Raise (MIPSolverException
            ("Gurobi: " ++ str_bytes (errormsg (default null_env (envs w !! e)))
               ++ " (" ++ name ++ ")"))
         (log (GRBgeterrormsg e) w)).
Proof.
  split.
  - intros ->. reflexivity.
  - intros name H. apply check_listed. exact H.
Qed.

Lemma check_translates_listed_codes_witness :
  check 3%nat 10006 two_variables_world =
  Raise (MIPSolverException "Gurobi: b'' (GRB_ERROR_INDEX_OUT_OF_RANGE)")
        (log (GRBgeterrormsg 3%nat) two_variables_world).
Proof.
  exact (proj2 (check_translates_listed_codes 3%nat 10006 two_variables_world)
               "GRB_ERROR_INDEX_OUT_OF_RANGE"%string eq_refl).
Defined.

(** ** Columns *)



(** ** Rows *)


Lemma nrows_ok (self : nat) (m : GRBmodel) (w : world) :
  model_of w self = Some m ->
  nrows self w =
  Ok (Z.of_nat (length (constrs m)))
     (log (GRBgetintattr (model (backend_of w self)) "NumConstrs") w).
Proof.
  intros Hm. unfold nrows, noexcept, bind, self_.
  rewrite (invoke_ask_model _ (model (backend_of w self)) (get_int_attr "NumConstrs") m);
    [| reflexivity | exact Hm | reflexivity].
  reflexivity.
Qed.






Lemma add_linear_constraint_range (self : nat) (coefficients : list (Z * float))
    (lb ub : pyval) (l u : float) (name : option string) (w : world) :
  as_double lb = inr l -> as_double ub = inr u -> py_eq lb ub = false ->
  add_linear_constraint self coefficients lb ub name w =
  one_call self (fun b => GRBaddrangeconstr (model b) (map fst coefficients)
                            (map snd coefficients) l u (default EmptyString name)) w.
Proof.
  intros Hl Hu He. unfold add_linear_constraint, one_call.
  rewrite (as_double_not_None _ _ Hu), (as_double_not_None _ _ Hl).
  cbn [andb negb]. rewrite He. unfold bind, self_. rewrite Hl, Hu. reflexivity.
Qed.



(** ** Sense, variable types, names *)

Lemma is_maximization_ok (self : nat) (m : GRBmodel) (w : world) :
  model_of w self = Some m ->
  is_maximization self w =
  Ok (ModelSense m =? -1)
     (log (GRBgetintattr (model (backend_of w self)) "ModelSense") w).
Proof.
  intros Hm. unfold is_maximization, noexcept, bind, self_.
  rewrite (invoke_ask_model _ (model (backend_of w self)) (get_int_attr "ModelSense") m);
    [| reflexivity | exact Hm | reflexivity].
  reflexivity.
Qed.

(** X4: [set_sense(1)] makes the problem a maximization and [set_sense] of
    any other integer, not only of -1, makes it a minimization:
    [is_maximization] afterwards returns whether the argument was 1. *)
Theorem set_sense_then_is_maximization (self : nat) (sense : Z) (m : GRBmodel) (w : world) :
  model_of w self = Some m ->
  exists w1 w2,
    set_sense self sense w = Ok tt w1
    /\ is_maximization self w1 = Ok (sense =? 1) w2.
Proof.
  intros Hm. unfold set_sense, bind, self_.
  destruct (sense =? 1).
  all: erewrite invoke_on_model; [| reflexivity | exact Hm | reflexivity].
  all: rewrite check_zero.
  all: erewrite invoke_updatemodel; [| apply lookup_insert_eq].
  all: rewrite check_zero; eexists _, _; split; [reflexivity |].
  all: erewrite is_maximization_ok; [| rewrite model_of_log; apply model_of_log_insert].
  all: reflexivity.
Qed.

Lemma set_sense_then_is_maximization_witness :
  exists w1 w2,
    set_sense 1%nat 0 two_variables_world = Ok tt w1
    /\ is_maximization 1%nat w1 = Ok false w2.
Proof.
  apply (set_sense_then_is_maximization 1%nat 0 (the_model two_variables_world 1%nat)
           two_variables_world).
  vm_compute. reflexivity.
Defined.

Lemma vtype_is_ok (c : ascii) (self : nat) (m : GRBmodel) (v : GRBvar) (i : Z) (w : world) :
  model_of w self = Some m ->
  var_at i m = Some v ->
  vtype_is c self i w =
  Ok (Ascii.eqb (VType v) c)
     (log (GRBgetcharattrelement (model (backend_of w self)) "VType" i) w).
Proof.
  intros Hm Hv.
  assert (Hr : get_char_attr_element "VType" i m = ok (OChr (VType v))).
  { unfold get_char_attr_element. cbn [String.eqb Ascii.eqb Bool.eqb]. rewrite Hv. reflexivity. }
  unfold vtype_is, noexcept, bind, self_.
  rewrite (invoke_ask_model _ (model (backend_of w self)) (get_char_attr_element "VType" i) m);
    [| reflexivity | exact Hm | rewrite Hr; reflexivity].
  rewrite Hr. reflexivity.
Qed.

(** X5: after [set_variable_type(variable, vtype)] on an existing variable
    exactly one of the three type tests holds: integer for [vtype = 1],
    binary for [vtype = 0], and continuous for every other code, not only
    for -1. *)
Theorem set_variable_type_then_tests (self : nat) (variable vtype : Z) (m : GRBmodel)
    (v : GRBvar) (w : world) :
  model_of w self = Some m ->
  var_at variable m = Some v ->
  exists w1 w2 w3 w4,
    set_variable_type self variable vtype w = Ok tt w1
    /\ is_variable_integer self variable w1 = Ok (vtype =? 1) w2
    /\ is_variable_binary self variable w2 = Ok (vtype =? 0) w3
    /\ is_variable_continuous self variable w3
       = Ok (negb (vtype =? 1) && negb (vtype =? 0)) w4.
Proof.
  intros Hm Hv. unfold set_variable_type, bind, self_.
  set (c := if vtype =? 1 then "I"%char else if vtype =? 0 then "B"%char else "C"%char).
  assert (Hc : valid_vtype c = true)
    by (unfold c; destruct (vtype =? 1), (vtype =? 0); reflexivity).
  erewrite invoke_on_model; [| reflexivity | exact Hm |].
  2: { unfold set_char_attr_element. cbn [String.eqb Ascii.eqb Bool.eqb]. rewrite Hc.
       apply (update_var_ok (set_VType c) _ _ _ Hv). }
  rewrite check_zero.
  erewrite invoke_updatemodel; [| apply lookup_insert_eq].
  rewrite check_zero.
  pose proof (var_at_updated (set_VType c) variable m v Hv) as Hv1.
  pose proof (model_of_log_insert
                (GRBsetcharattrelement (model (backend_of w self)) "VType" variable c)
                (updated (set_VType c) variable m) w self) as Hm1.
  assert (E1 : Ascii.eqb c "I" = (vtype =? 1))
    by (unfold c; destruct (vtype =? 1), (vtype =? 0); reflexivity).
  assert (E0 : Ascii.eqb c "B" = (vtype =? 0)).
  { unfold c. destruct (vtype =? 1) eqn:E; [| destruct (vtype =? 0); reflexivity].
    apply Z.eqb_eq in E. subst vtype. reflexivity. }
  assert (EC : Ascii.eqb c "C" = negb (vtype =? 1) && negb (vtype =? 0))
    by (unfold c; destruct (vtype =? 1), (vtype =? 0); reflexivity).
  unfold is_variable_integer, is_variable_binary, is_variable_continuous.
  eexists _, _, _, _. split; [reflexivity |].
  split; [| split].
  - erewrite (vtype_is_ok "I" self); [| exact Hm1 | exact Hv1].
    cbn [VType set_VType]. rewrite E1. reflexivity.
  - erewrite (vtype_is_ok "B" self); [| exact Hm1 | exact Hv1].
    cbn [VType set_VType]. rewrite E0. reflexivity.
  - erewrite (vtype_is_ok "C" self); [| exact Hm1 | exact Hv1].
    cbn [VType set_VType]. rewrite EC. reflexivity.
Qed.

Lemma set_variable_type_then_tests_witness :
  exists w1 w2 w3 w4,
    set_variable_type 1%nat 0 7 two_variables_world = Ok tt w1
    /\ is_variable_integer 1%nat 0 w1 = Ok false w2
    /\ is_variable_binary 1%nat 0 w2 = Ok false w3
    /\ is_variable_continuous 1%nat 0 w3 = Ok true w4.
Proof.
  apply (set_variable_type_then_tests 1%nat 0 7 (the_model two_variables_world 1%nat)
           (mkVar 0%float GRB_INFINITY GRB_CONTINUOUS 0%float "x_") two_variables_world);
    vm_compute; reflexivity.
Defined.

(** X6: a problem name without a NUL byte that was set is the name read
    back, and a model that was never named reads as the empty string, not
    as [None]. *)
Theorem problem_name_round_trip (self : nat) (name : string) (m : GRBmodel) (w : world) :
  model_of w self = Some m ->
  (c_str name = name ->
   exists w1 w2,
     problem_name self (Some name) w = Ok None w1
     /\ problem_name self None w1 = Ok (Some name) w2) /\
  (ModelName m = None ->
   exists w1, problem_name self None w = Ok (Some EmptyString) w1).
Proof.
  intros Hm. split.
  - intros _. unfold problem_name at 1. unfold bind, self_.
    erewrite invoke_on_model; [| reflexivity | exact Hm | reflexivity].
    rewrite check_zero.
    erewrite invoke_updatemodel; [| apply lookup_insert_eq].
    rewrite check_zero. eexists _, _. split; [reflexivity |].
    unfold problem_name, bind, self_.
    erewrite (invoke_ask_model _ _ (get_str_attr "ModelName"));
      [| reflexivity | apply model_of_log_insert | reflexivity].
    reflexivity.
  - intros Hn. unfold problem_name, bind, self_.
    erewrite (invoke_ask_model _ _ (get_str_attr "ModelName"));
      [| reflexivity | exact Hm | reflexivity].
    rewrite check_zero. cbn. rewrite Hn. eexists. reflexivity.
Qed.

Lemma problem_name_round_trip_witness :
  (exists w1 w2,
     problem_name 1%nat (Some "There once was a french fry"%string) two_variables_world
     = Ok None w1
     /\ problem_name 1%nat None w1 = Ok (Some "There once was a french fry"%string) w2)
  /\ exists w1, problem_name 1%nat None two_variables_world = Ok (Some EmptyString) w1.
Proof.
  destruct (problem_name_round_trip 1%nat "There once was a french fry"
              (the_model two_variables_world 1%nat) two_variables_world) as [H1 H2];
    [vm_compute; reflexivity |].
  split; [apply H1; reflexivity | apply H2; vm_compute; reflexivity].
Defined.

(** ** The objective *)

(** X7: a coefficient that is a nonzero number is written by
    [objective_coefficient(variable, coeff)], which returns [None], and the
    next read returns it as a double. *)
Theorem objective_coefficient_round_trip (self : nat) (variable : Z) (coeff : pyval)
    (c : float) (m : GRBmodel) (v : GRBvar) (w : world) :
  model_of w self = Some m ->
  var_at variable m = Some v ->
  truthy coeff = true ->
  as_double coeff = inr c ->
  exists w1 w2,
    objective_coefficient self variable coeff w = Ok PyNone w1
    /\ objective_coefficient self variable PyNone w1 = Ok (PyFloat c) w2.
Proof.
  intros Hm Hv Ht Hc. unfold objective_coefficient at 1. unfold bind, self_.
  rewrite Ht, Hc. cbn [convert ret].
  erewrite invoke_on_model;
    [| reflexivity | exact Hm | apply (update_var_ok (set_Obj c) _ _ _ Hv)].
  rewrite check_zero.
  erewrite invoke_updatemodel; [| apply lookup_insert_eq].
  rewrite check_zero. eexists _, _. split; [reflexivity |].
  erewrite objective_coefficient_read;
    [| apply model_of_log_insert | apply (var_at_updated (set_Obj c) _ _ _ Hv)].
  reflexivity.
Qed.

Lemma objective_coefficient_round_trip_witness :
  exists w1 w2,
    objective_coefficient 1%nat 0 (PyInt 2) two_variables_world = Ok PyNone w1
    /\ objective_coefficient 1%nat 0 PyNone w1 = Ok (PyFloat 2) w2.
Proof.
  apply (objective_coefficient_round_trip 1%nat 0 (PyInt 2) 2%float
           (the_model two_variables_world 1%nat)
           (mkVar 0%float GRB_INFINITY GRB_CONTINUOUS 0%float "x_") two_variables_world);
    vm_compute; reflexivity.
Defined.

(** ** New columns *)












(** ** Rows: entries, names, removal *)






















(** ** Solver parameters *)

Lemma invoke_on_env (c : call) (h : handle) (f : GRBenv -> reply * GRBenv)
    (e e' : GRBenv) (o : outval) (w : world) :
  native c w = on_env h f w ->
  envs w !! h = Some e ->
  f e = (ok o, e') ->
  invoke c w = Ok (ok o) (log c (set_envs <[h := e']> w)).
Proof.
  intros Hc He Hf. unfold invoke, native_call. rewrite Hc. unfold on_env.
  rewrite He, Hf. reflexivity.
Qed.

Lemma invoke_ask_env (c : call) (h : handle) (f : GRBenv -> reply) (e : GRBenv)
    (w : world) :
  native c w = ask_env h f w ->
  envs w !! h = Some e ->
  fst (f e) = 0 ->
  invoke c w = Ok (f e) (log c w).
Proof.
  intros Hc He H0. unfold invoke, native_call. rewrite Hc. unfold ask_env. rewrite He.
  unfold record_error. rewrite H0. reflexivity.
Qed.

Lemma set_param_ok (l : GRBlibrary) (name : string) (d v : param_value) (e : GRBenv) :
  param_default l name = Some d -> same_kind d v = true ->
  set_param l name v e = (ok ONone, mkEnv (<[name := v]> (params e)) (errormsg e)).
Proof. intros Hd Hk. unfold set_param. rewrite Hd, Hk. reflexivity. Qed.





(** ** [set_objective] with a list of another length *)









(** X16: [add_linear_constraint] does not compare the two bounds beyond
    equality: whenever they are two different numbers, also when the lower
    one is the greater, the row is requested from the native layer as a
    range row with the bounds as given. *)
Theorem add_linear_constraint_unordered_bounds (self : nat) (coefficients : list (Z * float))
    (lb ub : pyval) (l u : float) (name : option string) (w : world) :
  as_double lb = inr l -> as_double ub = inr u -> py_eq lb ub = false ->
  add_linear_constraint self coefficients lb ub name w =
  one_call self (fun b => GRBaddrangeconstr (model b) (map fst coefficients)
                            (map snd coefficients) l u (default EmptyString name)) w.
Proof. apply add_linear_constraint_range. Qed.

Lemma add_linear_constraint_unordered_bounds_witness :
  add_linear_constraint 1%nat [(0, 1%float)] (PyInt 5) (PyInt 3) None two_variables_world =
  one_call 1%nat (fun b => GRBaddrangeconstr (model b) [0] [1%float] 5%float 3%float
                             EmptyString) two_variables_world.
Proof.
  apply (add_linear_constraint_unordered_bounds 1%nat [(0, 1%float)] (PyInt 5) (PyInt 3)
           5%float 3%float None two_variables_world); reflexivity.
Defined.

(** ** The constructor *)

Lemma backend_of_setattr (self : nat) (b : Backend) (w : world) :
  backend_of (set_objs <[self := b]> w) self = b.
Proof. unfold backend_of. cbn. rewrite lookup_insert_eq. reflexivity. Qed.

Lemma bind_Ok {A B} (m : M A) (k : A -> M B) (a : A) (w w' : world) :
  m w = Ok a w' -> bind m k w = k a w'.
Proof. intros H. unfold bind. rewrite H. reflexivity. Qed.

Lemma bind_Ok_raise {A B} (m : M A) (k : A -> M B) (e : exn) (w w' : world) :
  m w = Raise e w' -> bind m k w = Raise e w'.
Proof. intros H. unfold bind. rewrite H. reflexivity. Qed.

Lemma invoke_emptyenv (w : world) :
  invoke GRBemptyenv w =
  Ok (ok (OPtr (fresh w)))
     (log GRBemptyenv (set_next (fresh w) (set_envs <[fresh w := null_env]> w))).
Proof. reflexivity. Qed.

Lemma invoke_newmodel (h : handle) (x : GRBenv) (w : world) :
  envs w !! h = Some x ->
  invoke (GRBnewmodel h) w =
  Ok (ok (OPtr (S (fresh w))))
     (log (GRBnewmodel h)
        (set_next (S (fresh w))
           (set_models <[S (fresh w) := mkModel (fresh w) [] [] 1 None GRB_LOADED None]>
              (set_envs <[fresh w := x]> w)))).
Proof.
  intros H. unfold invoke, native_call, native. rewrite H. reflexivity.
Qed.

Lemma invoke_getenv (h : handle) (m : GRBmodel) (w : world) :
  models w !! h = Some m ->
  invoke (GRBgetenv h) w = Ok (ok (OPtr (m_env m))) (log (GRBgetenv h) w).
Proof.
  intros H. unfold invoke, native_call, native. rewrite H. reflexivity.
Qed.

Lemma setattr_run (self : nat) (f : Backend -> Backend) (w : world) :
  setattr self f w = Ok tt (set_objs <[self := f (backend_of w self)]> w).
Proof. reflexivity. Qed.

Lemma self_run (self : nat) (w : world) : self_ self w = Ok (backend_of w self) w.
Proof. reflexivity. Qed.

Lemma set_int_attr_sense (v : Z) (m : GRBmodel) :
  v = 1 \/ v = -1 ->
  set_int_attr "ModelSense" v m
  = (ok ONone, touch (mkModel (m_env m) (vars m) (constrs m) v (ModelName m)
                              (Status m) (ObjVal m))).
Proof. intros [-> | ->]; reflexivity. Qed.

Lemma set_sense_run (self : nat) (sense : Z) (m : GRBmodel) (w : world) :
  model_of w self = Some m ->
  set_sense self sense w
  = Ok tt (log (GRBupdatemodel (model (backend_of w self)))
             (log (GRBsetintattr (model (backend_of w self)) "ModelSense"
                     (if sense =? 1 then -1 else 1))
                (set_models
                   <[model (backend_of w self) :=
                       touch (mkModel (m_env m) (vars m) (constrs m)
                                (if sense =? 1 then -1 else 1) (ModelName m)
                                (Status m) (ObjVal m))]> w))).
Proof.
  intros Hm. unfold set_sense.
  erewrite bind_Ok by apply self_run.
  erewrite bind_Ok.
  2: { eapply invoke_on_model; [reflexivity | exact Hm |].
       apply set_int_attr_sense. destruct (sense =? 1); auto. }
  erewrite bind_Ok by apply check_zero.
  erewrite bind_Ok by (eapply invoke_updatemodel; apply lookup_insert_eq).
  apply check_zero.
Qed.

Lemma set_verbosity_run (self : nat) (level d : Z) (e : GRBenv) (w : world) :
  envs w !! env (backend_of w self) = Some e ->
  param_default (lib w) "OutputFlag" = Some (PInt d) ->
  set_verbosity self level w
  = Ok tt (log (GRBsetintparam (env (backend_of w self)) "OutputFlag"
                  (if negb (level =? 0) then 1 else 0))
             (set_envs
                <[env (backend_of w self) :=
                    mkEnv (<["OutputFlag" := PInt (if negb (level =? 0) then 1 else 0)]>
                             (params e)) (errormsg e)]> w)).
Proof.
  intros He Hd. unfold set_verbosity.
  erewrite bind_Ok by apply self_run.
  erewrite bind_Ok.
  2: { eapply invoke_on_env; [reflexivity | exact He |].
       apply (set_param_ok _ _ (PInt d)); [exact Hd | reflexivity]. }
  apply check_zero.
Qed.

Ltac flat :=
  unfold log, set_envs, set_objs, set_next, set_models, fresh, backend_of, touch;
  cbn [lib envs models objs next trace]; rewrite ?lookup_insert_eq;
  cbn [from_option id env_master model env obj_constant_term ptr_of out snd fst ok error_of
       m_env vars constrs ModelSense ModelName Status ObjVal].


Lemma init_run (self : nat) (maximization : bool) (d : Z) (l : GRBlibrary)
    (es : gmap nat GRBenv) (ms : gmap nat GRBmodel) (os : gmap nat Backend) (n : nat)
    (tr : list call) :
  param_default l "OutputFlag" = Some (PInt d) ->
  __init__ self maximization (mkWorld l es ms os n tr)
  = Ok tt (mkWorld l
             (<[S (S n) := quiet_env]> (<[S n := quiet_env]> es))
             (<[S (S (S n)) := new_model (S (S n)) maximization]> ms)
             (<[self := mkBackend (S n) (S (S (S n))) (S (S n)) (PyFloat 0)]> os)
             (S (S (S n)))
             (tr ++ init_calls n maximization)).
Proof.
  intros Hd. unfold __init__.
  (* the master environment *)
  erewrite bind_Ok by apply invoke_emptyenv. flat.
  erewrite bind_Ok by apply setattr_run. flat.
  erewrite bind_Ok by apply self_run. flat.
  change (S n =? NULL)%nat with false. cbv iota.
  erewrite bind_Ok by apply check_zero.
  erewrite bind_Ok.
  2: { eapply invoke_on_env; [reflexivity | cbn; apply lookup_insert_eq |].
       apply (set_param_ok _ _ (PInt d)); [exact Hd | reflexivity]. }
  flat.
  erewrite bind_Ok by apply check_zero.
  erewrite bind_Ok.
  2: { eapply (invoke_ask_env _ _ (fun _ => ok ONone));
         [reflexivity | cbn; apply lookup_insert_eq | reflexivity]. }
  flat.
  erewrite bind_Ok by apply check_zero.
  (* the model *)
  erewrite bind_Ok by (apply invoke_newmodel; cbn; apply lookup_insert_eq). flat.
  erewrite bind_Ok by apply setattr_run. flat.
  erewrite bind_Ok by apply self_run. flat.
  erewrite bind_Ok by (apply invoke_getenv; cbn; apply lookup_insert_eq). flat.
  erewrite bind_Ok by apply setattr_run. flat.
  erewrite bind_Ok by apply self_run. flat.
  cbn [Z.eqb negb].
  erewrite bind_Ok.
  2: { eapply invoke_on_model; [reflexivity | cbn; apply lookup_insert_eq |].
       apply set_int_attr_sense. destruct maximization; auto. }
  flat.
  erewrite bind_Ok by apply check_zero.
  erewrite bind_Ok.
  2: { eapply set_sense_run. unfold model_of. flat. reflexivity. }
  flat.
  erewrite bind_Ok.
  2: { eapply (set_verbosity_run _ _ d); [flat; reflexivity | exact Hd]. }
  flat. rewrite setattr_run. flat.
  unfold null_env. cbn [params errormsg Z.eqb negb].
  rewrite !insert_insert_eq. rewrite <- !app_assoc.
  unfold quiet_env, new_model, init_calls. destruct maximization; reflexivity.
Qed.

Lemma GurobiBackend_run (maximization : bool) (d : Z) (l : GRBlibrary)
    (es : gmap nat GRBenv) (ms : gmap nat GRBmodel) (os : gmap nat Backend) (n : nat)
    (tr : list call) :
  param_default l "OutputFlag" = Some (PInt d) ->
  GurobiBackend maximization (mkWorld l es ms os n tr)
  = Ok (S n)
       (mkWorld l
          (<[S (S (S n)) := quiet_env]> (<[S (S n) := quiet_env]> es))
          (<[S (S (S (S n))) := new_model (S (S (S n))) maximization]> ms)
          (<[S n := mkBackend (S (S n)) (S (S (S (S n)))) (S (S (S n))) (PyFloat 0)]> os)
          (S (S (S (S n))))
          (tr ++ init_calls (S n) maximization)).
Proof.
  intros Hd. unfold GurobiBackend.
  erewrite bind_Ok by reflexivity. flat.
  erewrite bind_Ok by (apply (init_run _ _ d); exact Hd).
  rewrite insert_insert_eq. reflexivity.
Qed.

(** X17: a new backend is an empty problem: no columns, no rows, the
    requested sense, no name, constant term [0.0] and a solver log that is
    switched off, whatever the default of [OutputFlag] is. *)
Theorem GurobiBackend_starts_empty (maximization : bool) (d : Z) (w : world) :
  param_default (lib w) "OutputFlag" = Some (PInt d) ->
  exists p w0 w1 w2 w3 w4 w5,
    GurobiBackend maximization w = Ok p w0
    /\ ncols p w0 = Ok 0 w1
    /\ nrows p w1 = Ok 0 w2
    /\ is_maximization p w2 = Ok maximization w3
    /\ problem_name p None w3 = Ok (Some EmptyString) w4
    /\ solver_parameter p "OutputFlag" PyNone w4 = Ok (PyInt 0) w5
    /\ obj_constant_term (backend_of w5 p) = PyFloat 0.
Proof.
  destruct w as [l es ms os n tr]. cbn [lib]. intros Hd.
  rewrite (GurobiBackend_run _ d) by exact Hd.
  set (w0 := mkWorld _ _ _ _ _ _).
  assert (Hb : backend_of w0 (S n)
               = mkBackend (S (S n)) (S (S (S (S n)))) (S (S (S n))) (PyFloat 0)).
  { unfold w0. flat. reflexivity. }
  assert (Hm : model_of w0 (S n) = Some (new_model (S (S (S n))) maximization)).
  { unfold model_of. rewrite Hb. unfold w0. flat. reflexivity. }
  assert (He : envs w0 !! S (S (S n)) = Some quiet_env).
  { unfold w0. flat. reflexivity. }
  assert (Hl : lib w0 = l) by reflexivity.
  clearbody w0.
  eexists _, _, _, _, _, _, _. split; [reflexivity |].
  split; [rewrite (ncols_ok _ _ _ Hm); reflexivity |].
  split; [erewrite nrows_ok by (rewrite model_of_log; exact Hm); reflexivity |].
  split.
  { erewrite is_maximization_ok by (rewrite !model_of_log; exact Hm).
    destruct maximization; reflexivity. }
  split.
  { unfold problem_name, bind, self_.
    erewrite (invoke_ask_model _ _ (get_str_attr "ModelName"));
      [| reflexivity | exact Hm | reflexivity].
    rewrite check_zero. reflexivity. }
  split.
  - unfold solver_parameter, bind, self_.
    replace (parameters_type !! canonical_name "OutputFlag") with (Some "int"%string)
      by (vm_compute; reflexivity).
    cbn [String.eqb Ascii.eqb Bool.eqb is_None].
    change (canonical_name "OutputFlag") with "OutputFlag"%string.
    erewrite (invoke_ask_env _ _ (get_param l "OutputFlag" (PInt 0)) quiet_env);
      [| rewrite <- Hl; reflexivity
       | change (envs w0 !! env (backend_of w0 (S n)) = Some quiet_env);
         rewrite Hb; exact He
       | unfold get_param; rewrite Hd; reflexivity ].
    unfold get_param. rewrite Hd. reflexivity.
  - change (obj_constant_term (backend_of w0 (S n)) = PyFloat 0).
    rewrite Hb. reflexivity.
Qed.

Lemma GurobiBackend_starts_empty_witness :
  exists p w0 w1 w2 w3 w4 w5,
    GurobiBackend false (empty_world (sample_library GRB_OPTIMAL 0)) = Ok p w0
    /\ ncols p w0 = Ok 0 w1
    /\ nrows p w1 = Ok 0 w2
    /\ is_maximization p w2 = Ok false w3
    /\ problem_name p None w3 = Ok (Some EmptyString) w4
    /\ solver_parameter p "OutputFlag" PyNone w4 = Ok (PyInt 0) w5
    /\ obj_constant_term (backend_of w5 p) = PyFloat 0.
Proof.
  apply (GurobiBackend_starts_empty false 1 (empty_world (sample_library GRB_OPTIMAL 0))).
  reflexivity.
Defined.

Lemma invoke_copymodel (h : handle) (m : GRBmodel) (w : world) :
  models w !! h = Some m ->
  invoke (GRBcopymodel h) w =
  Ok (ok (OPtr (S (fresh w))))
     (log (GRBcopymodel h)
        (set_next (S (fresh w))
           (set_models
              <[S (fresh w) :=
                  mkModel (fresh w) (vars m) (constrs m) (ModelSense m)
                          (Some (copy_name (ModelName m))) (Status m) (ObjVal m)]>
              (set_envs <[fresh w := default null_env (envs w !! m_env m)]> w)))).
Proof.
  intros H. unfold invoke, native_call, native. rewrite H. reflexivity.
Qed.

Lemma problem_name_get (self : nat) (m : GRBmodel) (w : world) :
  model_of w self = Some m ->
  problem_name self None w
  = Ok (Some (default EmptyString (ModelName m)))
       (log (GRBgetstrattr (model (backend_of w self)) "ModelName") w).
Proof.
  intros Hm. unfold problem_name.
  erewrite bind_Ok by apply self_run.
  erewrite bind_Ok.
  2: { eapply (invoke_ask_model _ _ (get_str_attr "ModelName"));
         [reflexivity | exact Hm | reflexivity]. }
  erewrite bind_Ok by apply check_zero.
  reflexivity.
Qed.

Lemma problem_name_set (self : nat) (name : string) (m : GRBmodel) (w : world) :
  model_of w self = Some m ->
  problem_name self (Some name) w
  = Ok None
       (log (GRBupdatemodel (model (backend_of w self)))
          (log (GRBsetstrattr (model (backend_of w self)) "ModelName" name)
             (set_models
                <[model (backend_of w self) :=
                    mkModel (m_env m) (vars m) (constrs m) (ModelSense m) (Some name)
                            (Status m) (ObjVal m)]> w))).
Proof.
  intros Hm. unfold problem_name.
  erewrite bind_Ok by apply self_run.
  erewrite bind_Ok.
  2: { eapply invoke_on_model; [reflexivity | exact Hm | reflexivity]. }
  erewrite bind_Ok by apply check_zero.
  erewrite bind_Ok by (eapply invoke_updatemodel; apply lookup_insert_eq).
  erewrite bind_Ok by apply check_zero.
  reflexivity.
Qed.

(** X18: the copy of a backend is a new object on a native model of its
    own, with the columns, the rows, the sense and the name of the
    original, and the original's model is left as it was. It holds when
    the original and its model are below the allocation mark. *)
Theorem copy_keeps_problem (self : nat) (d : Z) (m : GRBmodel) (w : world) :
  param_default (lib w) "OutputFlag" = Some (PInt d) ->
  model_of w self = Some m ->
  (self <= next w)%nat ->
  (model (backend_of w self) <= next w)%nat ->
  exists p w' m',
    __copy__ self w = Ok p w'
    /\ p <> self
    /\ model (backend_of w' p) <> model (backend_of w' self)
    /\ model_of w' self = Some m
    /\ model_of w' p = Some m'
    /\ vars m' = vars m /\ constrs m' = constrs m /\ ModelSense m' = ModelSense m
    /\ ModelName m' = Some (default EmptyString (ModelName m)).
Proof.
  destruct w as [l es ms os n tr]. unfold model_of, backend_of. cbn [lib next objs models].
  set (b := default null_backend (os !! self)).
  intros Hd Hm Hs Hh.
  assert (Hos : forall x, default null_backend (<[S n := x]> os !! self) = b).
  { intros x. rewrite lookup_insert_ne by lia. reflexivity. }
  unfold __copy__.
  erewrite bind_Ok by (apply is_maximization_ok; exact Hm). flat. fold b.
  erewrite bind_Ok by (apply (GurobiBackend_run _ d); exact Hd).
  erewrite bind_Ok by apply self_run. flat. rewrite !Hos.
  erewrite bind_Ok.
  2: { apply (invoke_copymodel _ m). cbn [models].
       rewrite lookup_insert_ne by lia. exact Hm. }
  flat.
  erewrite bind_Ok by apply setattr_run. flat.
  erewrite bind_Ok by apply self_run. flat.
  erewrite bind_Ok by (apply invoke_getenv; cbn [models]; apply lookup_insert_eq). flat.
  erewrite bind_Ok by apply setattr_run. flat.
  rewrite !insert_insert_eq.
  erewrite bind_Ok.
  2: { apply (problem_name_get _ m). unfold model_of. flat. rewrite Hos.
       rewrite !lookup_insert_ne by lia. exact Hm. }
  flat. rewrite !Hos.
  erewrite bind_Ok.
  2: { eapply problem_name_set. unfold model_of. flat. reflexivity. }
  flat. rewrite !insert_insert_eq.
  eexists _, _, _. split; [reflexivity |].
  flat. rewrite !Hos.
  split; [lia |].
  split; [lia |].
  split; [rewrite !lookup_insert_ne by lia; exact Hm |].
  split; [reflexivity |].
  repeat split.
Qed.

Lemma copy_keeps_problem_witness :
  exists p w' m',
    __copy__ 1%nat objective_example = Ok p w'
    /\ p <> 1%nat
    /\ model (backend_of w' p) <> model (backend_of w' 1%nat)
    /\ model_of w' 1%nat = Some (the_model objective_example 1%nat)
    /\ model_of w' p = Some m'
    /\ vars m' = vars (the_model objective_example 1%nat)
    /\ constrs m' = constrs (the_model objective_example 1%nat)
    /\ ModelSense m' = ModelSense (the_model objective_example 1%nat)
    /\ ModelName m' = Some (default EmptyString (ModelName (the_model objective_example 1%nat))).
Proof.
  apply (copy_keeps_problem 1%nat 1 (the_model objective_example 1%nat) objective_example).
  - vm_compute. reflexivity.
  - vm_compute. reflexivity.
  - vm_compute. lia.
  - vm_compute. lia.
Defined.

(** X19: [set_verbosity(level)] switches the solver log on for every
    nonzero level, not only for the documented 1, 2 and 3, and off for 0:
    the parameter [OutputFlag] then reads 1 or 0 accordingly. *)
Theorem set_verbosity_then_output_flag (self : nat) (level d : Z) (e : GRBenv) (w : world) :
  envs w !! env (backend_of w self) = Some e ->
  param_default (lib w) "OutputFlag" = Some (PInt d) ->
  exists w1 w2,
    set_verbosity self level w = Ok tt w1
    /\ solver_parameter self "OutputFlag" PyNone w1
       = Ok (PyInt (if level =? 0 then 0 else 1)) w2.
Proof.
  intros He Hd. rewrite (set_verbosity_run _ _ d e) by assumption.
  destruct (level =? 0); cbn [negb].
  all: eexists _, _; (split; [reflexivity |]).
  all: unfold solver_parameter, bind, self_.
  all: replace (parameters_type !! canonical_name "OutputFlag") with (Some "int"%string)
    by (vm_compute; reflexivity).
  all: cbn [String.eqb Ascii.eqb Bool.eqb is_None].
  all: change (canonical_name "OutputFlag") with "OutputFlag"%string.
  all: erewrite (invoke_ask_env _ _ (get_param (lib w) "OutputFlag" (PInt 0)));
    [| reflexivity | apply lookup_insert_eq
     | unfold get_param; rewrite Hd; cbn; rewrite lookup_insert_eq; reflexivity ].
  all: unfold get_param; rewrite Hd; cbn; rewrite lookup_insert_eq; reflexivity.
Qed.

Lemma set_verbosity_then_output_flag_witness :
  exists w1 w2,
    set_verbosity 1%nat 7 two_variables_world = Ok tt w1
    /\ solver_parameter 1%nat "OutputFlag" PyNone w1 = Ok (PyInt 1) w2.
Proof.
  apply (set_verbosity_then_output_flag 1%nat 7 1 quiet_env two_variables_world).
  - vm_compute. reflexivity.
  - reflexivity.
Defined.

Lemma vtype_is_out_of_range (c : ascii) (self : nat) (i : Z) (m : GRBmodel) (w : world) :
  model_of w self = Some m ->
  var_at i m = None ->
  exists w', vtype_is c self i w = Ok false w' /\ model_of w' self = Some m.
Proof.
  intros Hm Hv.
  assert (Hr : get_char_attr_element "VType" i m = failed GRB_ERROR_INDEX_OUT_OF_RANGE).
  { unfold get_char_attr_element. cbn [String.eqb Ascii.eqb Bool.eqb]. rewrite Hv. reflexivity. }
  unfold vtype_is, noexcept.
  erewrite bind_Ok by apply self_run.
  erewrite bind_Ok.
  2: { unfold invoke, native_call. cbn [native]. unfold ask_model.
       unfold model_of in Hm. rewrite Hm, Hr. reflexivity. }
  erewrite bind_Ok_raise.
  2: { apply (check_listed _ _ "GRB_ERROR_INDEX_OUT_OF_RANGE"). vm_compute. reflexivity. }
  eexists. split; [reflexivity | exact Hm].
Qed.

(** X20: the three type tests never raise: for an index that is no
    variable the native error is dropped, each of them returns [False], so
    none of the three holds, and the model is unchanged. *)
Theorem type_tests_out_of_range (self : nat) (i : Z) (m : GRBmodel) (w : world) :
  model_of w self = Some m ->
  var_at i m = None ->
  exists w1 w2 w3,
    is_variable_binary self i w = Ok false w1
    /\ is_variable_integer self i w1 = Ok false w2
    /\ is_variable_continuous self i w2 = Ok false w3
    /\ model_of w3 self = Some m.
Proof.
  intros Hm Hv.
  destruct (vtype_is_out_of_range "B" self i m w Hm Hv) as (w1 & E1 & Hm1).
  destruct (vtype_is_out_of_range "I" self i m w1 Hm1 Hv) as (w2 & E2 & Hm2).
  destruct (vtype_is_out_of_range "C" self i m w2 Hm2 Hv) as (w3 & E3 & Hm3).
  exists w1, w2, w3. auto.
Qed.

Lemma type_tests_out_of_range_witness :
  exists w1 w2 w3,
    is_variable_binary 1%nat 2 two_variables_world = Ok false w1
    /\ is_variable_integer 1%nat 2 w1 = Ok false w2
    /\ is_variable_continuous 1%nat 2 w2 = Ok false w3
    /\ model_of w3 1%nat = Some (the_model two_variables_world 1%nat).
Proof.
  apply (type_tests_out_of_range 1%nat 2 (the_model two_variables_world 1%nat)
           two_variables_world).
  - vm_compute. reflexivity.
  - vm_compute. reflexivity.
Defined.
